(** * Health-IoT time-series benchmarking scripts: a shallow embedding

    The Python sources are a dataset generator, an InfluxDB CSV importer, a
    query-performance tester, an index analyzer, a token manager, a results
    collector and a security analyzer.  Each script is embedded below as Rocq
    functions that follow the Python text; the InfluxDB SDK, the clock and the
    random generator appear as explicit inputs.

    Python [float] values are embedded as exact rationals ([Q]): the
    statements below are about the arithmetic the scripts write down, not
    about IEEE-754 rounding.  Equality of rationals is [==] ([Qeq]). *)

From Stdlib Require Import ZArith QArith Qround Qabs Lqa Lia.
From Stdlib Require Import List String Ascii Bool Decimal DecimalString.
Import ListNotations.

Local Open Scope Q_scope.

(* ===================================================================== *)
(** * Part I: definitions                                                 *)
(* ===================================================================== *)

(** ** Python built-ins used by the scripts *)

Module Py.

(** [x < y] on numbers. *)
Definition Qltb (x y : Q) : bool := negb (Qle_bool y x).

(** Truth value of a number: everything but zero. *)
Definition truthy (x : Q) : bool := negb (Qeq_bool x 0).

(** [any(values)] on a list of numbers. *)
Definition any (values : list Q) : bool := existsb truthy values.

(** [max(values)] and [min(values)]: the first extremal element; both raise
    [ValueError] on the empty list ([None]). *)
Fixpoint max_from (m : Q) (values : list Q) : Q :=
  match values with
  | [] => m
  | v :: vs => max_from (if Qltb m v then v else m) vs
  end.

Definition max (values : list Q) : option Q :=
  match values with
  | [] => None
  | v :: vs => Some (max_from v vs)
  end.

Fixpoint min_from (m : Q) (values : list Q) : Q :=
  match values with
  | [] => m
  | v :: vs => min_from (if Qltb v m then v else m) vs
  end.

Definition min (values : list Q) : option Q :=
  match values with
  | [] => None
  | v :: vs => Some (min_from v vs)
  end.

(** [max(a, b)] and [min(a, b)] on two arguments. *)
Definition max2 (a b : Q) : Q := if Qltb a b then b else a.
Definition min2 (a b : Q) : Q := if Qltb b a then b else a.

(** [sum(values)]. *)
Definition sum (values : list Q) : Q := fold_right Qplus 0 values.

(** [statistics.mean(data)]: raises [StatisticsError] on the empty list. *)
Definition mean (data : list Q) : option Q :=
  match data with
  | [] => None
  | _ :: _ => Some (sum data / inject_Z (Z.of_nat (List.length data)))
  end.

(** Rounding to the nearest integer, ties to the even neighbour. *)
Definition round_half_even (x : Q) : Z :=
  let f := Qfloor x in
  match Qcompare (x - inject_Z f) (1 # 2) with
  | Lt => f
  | Gt => (f + 1)%Z
  | Eq => if Z.even f then f else (f + 1)%Z
  end.

(** [10 ** ndigits]. *)
Definition pow10 (ndigits : nat) : Z := (10 ^ Z.of_nat ndigits)%Z.

(** [round(x, ndigits)]. *)
Definition round (x : Q) (ndigits : nat) : Q :=
  inject_Z (round_half_even (x * inject_Z (pow10 ndigits)))
  / inject_Z (pow10 ndigits).

(** Decimal digits of a natural number, [str(n)]. *)
Definition str_of_N (n : N) : string := NilZero.string_of_uint (N.to_uint n).

(** [s.zfill(width)]: left padding with ['0'] (no sign handling is needed
    for the unsigned numerals it is applied to). *)
Fixpoint zeros (n : nat) : string :=
  match n with
  | O => EmptyString
  | S k => String "0" (zeros k)
  end.

Definition zfill (s : string) (width : nat) : string :=
  (zeros (width - String.length s) ++ s)%string.

(** [f"{x:.Nf}"]: fixed-point formatting with [ndigits] decimals. *)
Definition format_f (ndigits : nat) (x : Q) : string :=
  let scaled := Z.abs_N (round_half_even (x * inject_Z (pow10 ndigits))) in
  let p := Z.to_N (pow10 ndigits) in
  let sign := if Qltb x 0 then String "-" EmptyString else EmptyString in
  let int_part := str_of_N (scaled / p)%N in
  match ndigits with
  | O => (sign ++ int_part)%string
  | _ => (sign ++ int_part ++ String "." EmptyString
               ++ zfill (str_of_N (scaled mod p)%N) ndigits)%string
  end.

(** [c.lower()] on an ASCII letter; other bytes are left as they are. *)
Definition lower_ascii (c : ascii) : ascii :=
  let n := nat_of_ascii c in
  if (65 <=? n)%nat && (n <=? 90)%nat then ascii_of_nat (n + 32) else c.

(** [s.lower()]. *)
Fixpoint lower (s : string) : string :=
  match s with
  | EmptyString => EmptyString
  | String c s' => String (lower_ascii c) (lower s')
  end.

(** [needle in hay] on strings. *)
Fixpoint str_in (needle hay : string) : bool :=
  String.prefix needle hay
  || match hay with
     | EmptyString => false
     | String _ hay' => str_in needle hay'
     end.

(** What [needle in hay] decides: [needle] occurs in [hay] as a contiguous
    block. *)
Definition substring_of (needle hay : string) : Prop :=
  exists pre suf : string, hay = (pre ++ needle ++ suf)%string.

(** A dictionary with string keys, in insertion order. *)
Definition dict (V : Type) : Type := list (string * V).

(** [d[key]]: [None] stands for [KeyError]. *)
Fixpoint lookup {V : Type} (key : string) (d : dict V) : option V :=
  match d with
  | [] => None
  | (k, v) :: d' => if String.eqb k key then Some v else lookup key d'
  end.

(** [key in d]. *)
Definition contains {V : Type} (key : string) (d : dict V) : bool :=
  match lookup key d with Some _ => true | None => false end.

(** [d.get(key, default)]. *)
Definition dict_get {V : Type} (d : dict V) (key : string) (default : V) : V :=
  match lookup key d with Some v => v | None => default end.

(** [l[i] = v] on a list: [None] stands for [IndexError]. *)
Definition set_item {A : Type} (l : list A) (i : nat) (v : A)
  : option (list A) :=
  if (i <? List.length l)%nat
  then Some (firstn i l ++ v :: skipn (S i) l)%list
  else None.

(** A raised exception: the name of its class and [str(e)].  Only instances
    of [Exception] are modelled. *)
Record exn := Exn {
  exn_class : string;
  exn_str : string
}.

(** The outcome of a call that may raise. *)
Inductive result (A : Type) : Type :=
| Ok (a : A)
| Raised (e : exn).

Arguments Ok {A} a.
Arguments Raised {A} e.

(** Truth value of a string: everything but the empty string. *)
Definition truthy_str (s : string) : bool :=
  match s with EmptyString => false | String _ _ => true end.

(** The double-quote character, and a string between double quotes. *)
Definition dq : string := String (ascii_of_nat 34) EmptyString.
Definition quoted (s : string) : string := (dq ++ s ++ dq)%string.

(** The newline character. *)
Definition nl : string := String (ascii_of_nat 10) EmptyString.

(** Lines joined the way a triple-quoted literal holds them. *)
Definition unlines (ls : list string) : string := String.concat nl ls.

End Py.

(** ** 15_indexing_performance.py: [InfluxDBIndexAnalyzer] *)

Module IndexingPerformance.

(** The [scan_stats] dictionary of [_estimate_scan_stats]; a key that is
    absent is [None] (the dictionary is empty when every iteration failed). *)
Record ScanStats := {
  scan_type_key : option string;
  series_scanned_key : option Z;
  bytes_scanned_key : option Z
}.

Record IndexAnalysisResult := {
  query_name : string;
  query_type : string;
  execution_time_with_index : Q;
  execution_time_without_index : Q;
  performance_improvement : Q;
  result_count : Z;
  scan_type : string;
  series_scanned : Z;
  bytes_scanned : Z;
  recommendation : string;
  query_text : string
}.

(** One entry of [test_queries] in [test_index_effectiveness]. *)
Record IndexTest := {
  test_name : string;
  test_type : string;
  test_description : string;
  with_index : string;
  without_index : string
}.

(** The "Calculate improvement" step of [test_index_effectiveness]. *)
Definition improvement_of (time_with time_without : Q) : Q :=
  if Py.Qltb 0 time_with && Py.Qltb 0 time_without
  then time_without / time_with
  else 1.

Definition excellent_msg (s : string) : string :=
  ("Excellent optimization (" ++ s
   ++ "x improvement). Keep current data organization.")%string.

Definition good_msg (s : string) : string :=
  ("Good optimization (" ++ s
   ++ "x improvement). Consider adding more specific filters.")%string.

Definition minor_msg (s : string) : string :=
  ("Minor optimization (" ++ s
   ++ "x improvement). Review query patterns.")%string.

Definition no_improvement_msg : string :=
  "No significant improvement. Consider restructuring data or queries."%string.

Definition _generate_index_recommendation
  (query_type : string) (improvement : Q) (scan_with scan_without : ScanStats)
  : string :=
  if Py.Qltb 5 improvement then excellent_msg (Py.format_f 1 improvement)
  else if Py.Qltb 2 improvement then good_msg (Py.format_f 1 improvement)
  else if Py.Qltb 1 improvement then minor_msg (Py.format_f 1 improvement)
  else no_improvement_msg.

Definition get {A} (o : option A) (default : A) : A :=
  match o with Some v => v | None => default end.

(** The body of the loop of [test_index_effectiveness] for one test, given
    what [execute_and_analyze_query] returned for its two queries. *)
Definition analyze_test (test : IndexTest)
  (measured_with measured_without : Q * Z * ScanStats) : IndexAnalysisResult :=
  let '(time_with, count_with, scan_with) := measured_with in
  let '(time_without, count_without, scan_without) := measured_without in
  let improvement := improvement_of time_with time_without in
  let recommendation :=
    _generate_index_recommendation (test_type test) improvement
                                   scan_with scan_without in
  {| query_name := test_name test;
     query_type := test_type test;
     execution_time_with_index := time_with;
     execution_time_without_index := time_without;
     performance_improvement := improvement;
     result_count := count_with;
     scan_type := get (scan_type_key scan_with) "unknown"%string;
     series_scanned := get (series_scanned_key scan_with) 0%Z;
     bytes_scanned := get (bytes_scanned_key scan_with) 0%Z;
     recommendation := recommendation;
     query_text := with_index test |}.

(** [test_index_effectiveness]: [execute_and_analyze_query] is the function
    argument, the rest is the loop over the tests. *)
Definition test_index_effectiveness
  (execute_and_analyze_query : string -> Q * Z * ScanStats)
  (test_queries : list IndexTest) : list IndexAnalysisResult :=
  map (fun test =>
         analyze_test test
           (execute_and_analyze_query (with_index test))
           (execute_and_analyze_query (without_index test)))
      test_queries.

End IndexingPerformance.

(** ** 26_security_analysis.py: [SecurityAnalyzer] *)

Module SecurityAnalysis.
Local Open Scope string_scope.

(** One dictionary of a feature list ([pg_features] and the like). *)
Record Feature := {
  feature : string;
  implementation : string;
  strength : string;
  description : string;
  hipaa_compliant : bool;
  gdpr_compliant : bool
}.

(** One value of [self.security_frameworks]. *)
Record Framework := {
  name : string;
  requirements : list string
}.

(** [self.security_frameworks] as [__init__] sets it, in insertion order. *)
Definition security_frameworks : Py.dict Framework :=
  [ ("hipaa",
     {| name := "HIPAA";
        requirements := [ "access_controls"; "audit_trails"; "data_encryption";
                          "authentication"; "authorization" ] |});
    ("gdpr",
     {| name := "GDPR";
        requirements := [ "data_protection"; "consent_management";
                          "right_to_erasure"; "data_portability";
                          "privacy_by_design" ] |});
    ("iso_27001",
     {| name := "ISO 27001";
        requirements := [ "risk_assessment"; "security_policies";
                          "access_control"; "cryptography";
                          "physical_security" ] |}) ].

(** [pg_features] of [analyze_postgresql_security]. *)
Definition pg_features : list Feature :=
  [ {| feature := "Row Level Security (RLS)"; implementation := "Native";
       strength := "High";
       description := "Fine-grained access control at row level";
       hipaa_compliant := true; gdpr_compliant := true |};
    {| feature := "SSL/TLS Encryption"; implementation := "Native";
       strength := "High"; description := "Encrypted connections";
       hipaa_compliant := true; gdpr_compliant := true |};
    {| feature := "Column Encryption"; implementation := "pgcrypto extension";
       strength := "Medium"; description := "Column-level encryption support";
       hipaa_compliant := true; gdpr_compliant := true |};
    {| feature := "Audit Logging"; implementation := "pgaudit extension";
       strength := "High"; description := "Comprehensive audit trail";
       hipaa_compliant := true; gdpr_compliant := true |};
    {| feature := "Role-Based Access Control"; implementation := "Native";
       strength := "High"; description := "Granular permissions system";
       hipaa_compliant := true; gdpr_compliant := true |} ].

(** [influx_features] of [analyze_influxdb_security]. *)
Definition influx_features : list Feature :=
  [ {| feature := "Token-Based Authentication"; implementation := "Native";
       strength := "High"; description := "API tokens for authentication";
       hipaa_compliant := true; gdpr_compliant := true |};
    {| feature := "TLS/SSL Encryption"; implementation := "Native";
       strength := "High"; description := "Encrypted communications";
       hipaa_compliant := true; gdpr_compliant := true |};
    {| feature := "User Management"; implementation := "Native";
       strength := "Medium"; description := "Basic user and permission system";
       hipaa_compliant := true; gdpr_compliant := false |};
    {| feature := "Audit Logs"; implementation := "Enterprise Only";
       strength := "Low"; description := "Limited in open source version";
       hipaa_compliant := false; gdpr_compliant := false |};
    {| feature := "Data Retention Policies"; implementation := "Native";
       strength := "High"; description := "Automatic data expiration";
       hipaa_compliant := true; gdpr_compliant := true |} ].

(** [mongo_features] of [analyze_mongodb_security]. *)
Definition mongo_features : list Feature :=
  [ {| feature := "Role-Based Access Control"; implementation := "Native";
       strength := "High"; description := "Fine-grained role permissions";
       hipaa_compliant := true; gdpr_compliant := true |};
    {| feature := "Field-Level Encryption"; implementation := "Enterprise Only";
       strength := "High"; description := "Client-side field encryption";
       hipaa_compliant := true; gdpr_compliant := true |};
    {| feature := "Audit Logging"; implementation := "Enterprise Only";
       strength := "Medium"; description := "Comprehensive audit trail";
       hipaa_compliant := true; gdpr_compliant := true |};
    {| feature := "TLS/SSL Encryption"; implementation := "Native";
       strength := "High"; description := "Encrypted connections";
       hipaa_compliant := true; gdpr_compliant := true |};
    {| feature := "LDAP Integration"; implementation := "Enterprise Only";
       strength := "Medium"; description := "Enterprise directory integration";
       hipaa_compliant := true; gdpr_compliant := true |} ].

(** One dictionary of [compliance_details]: a compliant requirement carries
    the key ["features"], the other one the key ["notes"]. *)
Record Detail := {
  d_requirement : string;
  d_status : string;
  d_features : option (list string);
  d_notes : option string
}.

(** One value of the dictionary [_assess_compliance] returns. *)
Record Compliance := {
  framework : string;
  score : Q;
  status : string;
  details : list Detail
}.

(** [req in feature.get("description", "").lower() or
     req in feature.get("feature", "").lower()]. *)
Definition mentions (req : string) (f : Feature) : bool :=
  Py.str_in req (Py.lower (description f))
  || Py.str_in req (Py.lower (feature f)).

Definition _get_compliance_status (score : Q) : string :=
  if Qle_bool 90 score then "Fully Compliant"
  else if Qle_bool 70 score then "Mostly Compliant"
  else if Qle_bool 50 score then "Partially Compliant"
  else "Non-Compliant".

(** The dictionary appended for a requirement some feature mentions. *)
Definition compliant_detail (features : list Feature) (req : string) : Detail :=
  {| d_requirement := req;
     d_status := "Compliant";
     d_features := Some (map feature (filter (mentions req) features));
     d_notes := None |}.

(** The dictionary appended for a requirement no feature mentions. *)
Definition non_compliant_detail (database : string) (req : string) : Detail :=
  {| d_requirement := req;
     d_status := "Non-Compliant";
     d_features := None;
     d_notes := Some ("No native " ++ database ++ " feature found") |}.

(** The body of [for req in requirements]: the loop state is the pair of
    [score] and [compliance_details]. *)
Definition assess_requirement (features : list Feature) (database : string)
  (st : Z * list Detail) (req : string) : Z * list Detail :=
  let '(score, compliance_details) := st in
  let feature_support := existsb (mentions req) features in
  if feature_support then
    ((score + 1)%Z, (compliance_details ++ [compliant_detail features req])%list)
  else
    (score, (compliance_details ++ [non_compliant_detail database req])%list).

(** The body of [for framework_key, framework in ...items()]. *)
Definition assess_framework (features : list Feature) (database : string)
  (fw : Framework) : Compliance :=
  let framework_name := name fw in
  let requirements := requirements fw in
  let max_score := Z.of_nat (List.length requirements) in
  let '(score, compliance_details) :=
    fold_left (assess_requirement features database) requirements (0%Z, []) in
  let compliance_score :=
    if (0 <? max_score)%Z
    then (inject_Z score / inject_Z max_score) * 100
    else 0 in
  {| framework := framework_name;
     score := Py.round compliance_score 2;
     status := _get_compliance_status compliance_score;
     details := compliance_details |}.

(** [_assess_compliance], with the dictionary [self.security_frameworks] as
    its first argument. *)
Definition _assess_compliance_in (frameworks : Py.dict Framework)
  (features : list Feature) (database : string) : Py.dict Compliance :=
  map (fun kv => (fst kv, assess_framework features database (snd kv)))
      frameworks.

Definition _assess_compliance (features : list Feature) (database : string)
  : Py.dict Compliance :=
  _assess_compliance_in security_frameworks features database.

(** *** Vocabulary of the statements about [_assess_compliance] *)

(** What the loop appends for one requirement. *)
Definition detail_for (features : list Feature) (database req : string)
  : Detail :=
  if existsb (mentions req) features
  then compliant_detail features req
  else non_compliant_detail database req.

(** The number of requirements of [fw] that some feature mentions. *)
Definition matched (features : list Feature) (fw : Framework) : Z :=
  Z.of_nat (List.length
              (filter (fun r => existsb (mentions r) features)
                      (requirements fw))).

Definition total (fw : Framework) : Z :=
  Z.of_nat (List.length (requirements fw)).

(** Key, score and status of every entry of a result. *)
Definition summary_is (result : Py.dict Compliance)
  (expected : list (string * Q * string)) : Prop :=
  Forall2 (fun kv e => fst kv = fst (fst e)
                       /\ score (snd kv) == snd (fst e)
                       /\ status (snd kv) = snd e)
          result expected.

(** The requirements of a framework that a feature list is found to meet. *)
Definition compliant_requirements (c : Compliance) : list string :=
  map d_requirement
      (filter (fun d => String.eqb (d_status d) "Compliant") (details c)).

Definition all_requirements : list string :=
  flat_map (fun kv => requirements (snd kv)) security_frameworks.

End SecurityAnalysis.

(** ** 24_results_collector.py: [ResultsCollector] *)

Module ResultsCollector.
Local Open Scope string_scope.

(** The [comparison] dictionary of columns. *)
Record Comparison := {
  database : list string;
  ingestion_rate : list Q;
  query_latency : list Q;
  storage_size : list Q;
  index_efficiency : list Q;
  security_score : list Q;
  total_score : list Q
}.

(** The dictionary with its ["total_score"] column replaced. *)
Definition with_total_score (c : Comparison) (ts : list Q) : Comparison :=
  {| database := database c;
     ingestion_rate := ingestion_rate c;
     query_latency := query_latency c;
     storage_size := storage_size c;
     index_efficiency := index_efficiency c;
     security_score := security_score c;
     total_score := ts |}.

(** [comparison["total_score"][i] = v]. *)
Definition set_total_score (c : Comparison) (i : nat) (v : Q)
  : option Comparison :=
  match Py.set_item (total_score c) i v with
  | Some ts => Some (with_total_score c ts)
  | None => None
  end.

(** [comparison["ingestion_rate"][i] = v]. *)
Definition set_ingestion_rate (c : Comparison) (i : nat) (v : Q)
  : option Comparison :=
  match Py.set_item (ingestion_rate c) i v with
  | Some ir =>
      Some {| database := database c;
              ingestion_rate := ir;
              query_latency := query_latency c;
              storage_size := storage_size c;
              index_efficiency := index_efficiency c;
              security_score := security_score c;
              total_score := total_score c |}
  | None => None
  end.

(** The rescaling of a higher-is-better column:
    [if any(values): max_val = max(values);
     if max_val > 0: [v / max_val * 100 for v in values]]. *)
Definition normalize_higher (values : list Q) : list Q :=
  if Py.any values then
    match Py.max values with
    | Some max_val =>
        if Py.Qltb 0 max_val
        then map (fun v => v / max_val * 100) values
        else values
    | None => values
    end
  else values.

(** The inversion of a lower-is-better column:
    [[(1 - v / max_latency) * 100 for v in ...]] under the same guards. *)
Definition normalize_lower (values : list Q) : list Q :=
  if Py.any values then
    match Py.max values with
    | Some max_val =>
        if Py.Qltb 0 max_val
        then map (fun v => (1 - v / max_val) * 100) values
        else values
    | None => values
    end
  else values.

(** The [weights] dictionary: each metric column with its weight. *)
Definition weights : list ((Comparison -> list Q) * Q) :=
  [ (ingestion_rate, 25 # 100);
    (query_latency, 25 # 100);
    (storage_size, 20 # 100);
    (index_efficiency, 20 # 100);
    (security_score, 10 # 100) ].

(** [total = 0; for metric, weight in weights.items():
     total += comparison[metric][i] * weight]. *)
Definition weighted_total (c : Comparison) (i : nat) : option Q :=
  fold_left
    (fun total mw =>
       match total, nth_error (fst mw c) i with
       | Some t, Some v => Some (t + v * snd mw)
       | _, _ => None
       end)
    weights (Some 0).

(** The body of [for i in range(len(comparison["database"]))]. *)
Definition score_row (st : option Comparison) (i : nat) : option Comparison :=
  match st with
  | None => None
  | Some c =>
      match weighted_total c i with
      | Some total => set_total_score c i (Py.round total 2)
      | None => None
      end
  end.

(** [_normalize_and_score]: the dictionary is updated in place; [None]
    stands for the [IndexError] of a column that is too short. *)
Definition _normalize_and_score (comparison : Comparison) : option Comparison :=
  let c :=
    {| database := database comparison;
       ingestion_rate := normalize_higher (ingestion_rate comparison);
       query_latency := normalize_lower (query_latency comparison);
       storage_size := normalize_lower (storage_size comparison);
       index_efficiency := normalize_higher (index_efficiency comparison);
       security_score := security_score comparison;
       total_score := total_score comparison |} in
  fold_left score_row (seq 0 (List.length (database c))) (Some c).

(** [self.results["metrics"]]: category, then database, then key. *)
Definition Metrics : Type := Py.dict (Py.dict (Py.dict Q)).

(** The step [if db in ingestion:
     comparison["ingestion_rate"][i] = ingestion[db].get(key, 0)]. *)
Definition fill_ingestion (ingestion : Py.dict (Py.dict Q))
  (db : string) (i : nat) (key : string) (st : option Comparison)
  : option Comparison :=
  match st with
  | None => None
  | Some c =>
      match Py.lookup db ingestion with
      | Some per_db => set_ingestion_rate c i (Py.dict_get per_db key 0)
      | None => Some c
      end
  end.

(** [generate_comparison_table], up to the data frame it returns; the
    argument is [self.results.get("metrics")]. *)
Definition generate_comparison_table (results_metrics : option Metrics)
  : option Comparison :=
  let comparison :=
    {| database := ["PostgreSQL"; "InfluxDB"; "MongoDB"];
       ingestion_rate := [0; 0; 0];
       query_latency := [0; 0; 0];
       storage_size := [0; 0; 0];
       index_efficiency := [0; 0; 0];
       security_score := [0; 0; 0];
       total_score := [0; 0; 0] |} in
  let metrics := match results_metrics with Some m => m | None => [] end in
  let ingestion := Py.dict_get metrics "ingestion_performance" [] in
  let st := Some comparison in
  let st := fill_ingestion ingestion "postgresql" 0 "avg_insert_rate" st in
  let st := fill_ingestion ingestion "influxdb" 1 "points_per_second" st in
  let st := fill_ingestion ingestion "mongodb" 2 "insert_rate" st in
  match st with
  | Some c => _normalize_and_score c
  | None => None
  end.

(** [df["total_score"].idxmax()]: the first position of the largest value. *)
Fixpoint idxmax_from (best : nat) (best_val : Q) (i : nat) (values : list Q)
  : nat :=
  match values with
  | [] => best
  | v :: vs =>
      if Py.Qltb best_val v then idxmax_from i v (S i) vs
      else idxmax_from best best_val (S i) vs
  end.

Definition idxmax (values : list Q) : option nat :=
  match values with
  | [] => None
  | v :: vs => Some (idxmax_from 0 v 1 vs)
  end.

(** [winner = df.loc[df["total_score"].idxmax()]]: name and total score. *)
Definition winner (c : Comparison) : option (string * Q) :=
  match idxmax (total_score c) with
  | Some i =>
      match nth_error (database c) i, nth_error (total_score c) i with
      | Some d, Some t => Some (d, t)
      | _, _ => None
      end
  | None => None
  end.

(** The line [f"   Total Score: {winner['total_score']}/100\n\n"] of
    [generate_summary_report]; [repr] writes the number. *)
Definition total_score_line (repr : Q -> string) (w : string * Q) : string :=
  "   Total Score: " ++ repr (snd w) ++ "/100" ++ Py.nl ++ Py.nl.

(** *** Vocabulary of the statements about the scores *)

(** A value lies on the 0-100 scale. *)
Definition on_scale (v : Q) : Prop := 0 <= v /\ v <= 100.

(** A table whose only non-zero entry is a security score of 2000. *)
Definition unscaled_security : Comparison :=
  {| database := ["PostgreSQL"; "InfluxDB"; "MongoDB"];
     ingestion_rate := [0; 0; 0];
     query_latency := [0; 0; 0];
     storage_size := [0; 0; 0];
     index_efficiency := [0; 0; 0];
     security_score := [2000; 0; 0];
     total_score := [0; 0; 0] |}.

(** A table with metrics in every column. *)
Definition sample_comparison : Comparison :=
  {| database := ["PostgreSQL"; "InfluxDB"; "MongoDB"];
     ingestion_rate := [1200; 4800; 2400];
     query_latency := [12; 3; 6];
     storage_size := [500; 125; 250];
     index_efficiency := [2; 1; 4];
     security_score := [90; 60; 75];
     total_score := [0; 0; 0] |}.

(** Collected metrics with 3 inserts per second for PostgreSQL and 1 point
    per second for InfluxDB. *)
Definition three_to_one : Metrics :=
  [ ("ingestion_performance",
     [ ("postgresql", [ ("avg_insert_rate", 3) ]);
       ("influxdb", [ ("points_per_second", 1) ]) ]) ].

(** All columns have one entry per database. *)
Definition well_formed (c : Comparison) : Prop :=
  let n := List.length (database c) in
  List.length (ingestion_rate c) = n /\
  List.length (query_latency c) = n /\
  List.length (storage_size c) = n /\
  List.length (index_efficiency c) = n /\
  List.length (security_score c) = n /\
  List.length (total_score c) = n.

(** The weighted sum of row [i], in the order the loop adds it up, and its
    rounding to two decimals. *)
Definition row_raw (c : Comparison) (i : nat) : Q :=
  0 + nth i (ingestion_rate c) 0 * (25 # 100)
    + nth i (query_latency c) 0 * (25 # 100)
    + nth i (storage_size c) 0 * (20 # 100)
    + nth i (index_efficiency c) 0 * (20 # 100)
    + nth i (security_score c) 0 * (10 # 100).

Definition row_total (c : Comparison) (i : nat) : Q :=
  Py.round (row_raw c i) 2.

Definition nonnegative (values : list Q) : Prop :=
  Forall (fun v => 0 <= v) values.

End ResultsCollector.

(** ** 10_data_import.py: [HealthIoTDataImporter] *)

Module DataImport.
Local Open Scope string_scope.

(** [isinstance(e, InfluxDBError)], the test of [except InfluxDBError]. *)
Definition is_InfluxDBError (e : Py.exn) : bool :=
  String.eqb (Py.exn_class e) "InfluxDBError".

(** The variables of the batch loop of [import_data], with two logs: the
    number of calls of [write_api.write] so far and the arguments of
    [time.sleep] in the order of the calls. *)
Record ImportState := {
  imported_points : Z;
  failed_batches : Z;
  write_calls : nat;
  sleeps : list Q
}.

Definition sleep (seconds : Q) (st : ImportState) : ImportState :=
  {| imported_points := imported_points st;
     failed_batches := failed_batches st;
     write_calls := write_calls st;
     sleeps := sleeps st ++ [seconds] |}.

Definition called (st : ImportState) : ImportState :=
  {| imported_points := imported_points st;
     failed_batches := failed_batches st;
     write_calls := S (write_calls st);
     sleeps := sleeps st |}.

Definition add_imported (n : Z) (st : ImportState) : ImportState :=
  {| imported_points := (imported_points st + n)%Z;
     failed_batches := failed_batches st;
     write_calls := write_calls st;
     sleeps := sleeps st |}.

Definition add_failed (st : ImportState) : ImportState :=
  {| imported_points := imported_points st;
     failed_batches := (failed_batches st + 1)%Z;
     write_calls := write_calls st;
     sleeps := sleeps st |}.

(** What [import_data] returns: the empty dictionary, or the statistics (the
    two entries computed from the clock are left out). *)
Record ImportSummary := {
  total_points : Z;
  summary_imported_points : Z;
  summary_failed_batches : Z
}.

Section ImportLoop.

(** A point of the SDK. *)
Variable Point : Type.

(** [write_api.write(bucket=self.bucket, record=batch)]: the answer of the
    SDK to its n-th call, [Ok tt] or the exception it raises. *)
Variable write_api : nat -> list Point -> Py.result unit.

Variable max_retries : Z.

(** [for attempt in range(max_retries)], from [attempt] on, with [remaining]
    iterations left.  An exception that is no [InfluxDBError] leaves
    [import_data]. *)
Fixpoint retry_loop (remaining : nat) (attempt : Z) (batch : list Point)
  (st : ImportState) : Py.result ImportState :=
  match remaining with
  | O => Py.Ok st
  | S remaining' =>
      match write_api (write_calls st) batch with
      | Py.Ok _ =>
          Py.Ok (add_imported (Z.of_nat (List.length batch)) (called st))
      | Py.Raised e =>
          if is_InfluxDBError e then
            if (attempt <? max_retries - 1)%Z
            then retry_loop remaining' (attempt + 1)%Z batch
                            (sleep (inject_Z (2 ^ attempt)) (called st))
            else retry_loop remaining' (attempt + 1)%Z batch
                            (add_failed (called st))
          else Py.Raised e
      end
  end.

(** The body of [for i in range(0, total_points, batch_size)]. *)
Definition import_batch (batch : list Point) (st : ImportState)
  : Py.result ImportState :=
  match retry_loop (Z.to_nat max_retries) 0%Z batch st with
  | Py.Ok st' => Py.Ok (sleep (1 # 10) st')
  | Py.Raised e => Py.Raised e
  end.

Fixpoint import_batches (batches : list (list Point)) (st : ImportState)
  : Py.result ImportState :=
  match batches with
  | [] => Py.Ok st
  | batch :: rest =>
      match import_batch batch st with
      | Py.Ok st' => import_batches rest st'
      | Py.Raised e => Py.Raised e
      end
  end.

(** [[points[i : i + batch_size] for i in range(0, len(points), batch_size)]]
    for a positive [batch_size]. *)
Fixpoint chunks (fuel : nat) (size : nat) (points : list Point)
  : list (list Point) :=
  match fuel, points with
  | O, _ => []
  | _, [] => []
  | S fuel', _ :: _ => firstn size points :: chunks fuel' size (skipn size points)
  end.

(** The batches of the loop: [range] raises [ValueError] for step 0 and is
    empty for a negative step. *)
Definition batches_of (points : list Point) (batch_size : Z)
  : Py.result (list (list Point)) :=
  if (batch_size =? 0)%Z then
    Py.Raised (Py.Exn "ValueError" "range() arg 3 must not be zero")
  else if (batch_size <? 0)%Z then Py.Ok []
  else Py.Ok (chunks (List.length points) (Z.to_nat batch_size) points).

Definition initial : ImportState :=
  {| imported_points := 0; failed_batches := 0; write_calls := 0;
     sleeps := [] |}.

(** [import_data] on the points parsed from the file. *)
Definition import_data (points : list Point) (batch_size : Z)
  (write_mode : string) : Py.result (option ImportSummary * ImportState) :=
  match points with
  | [] => Py.Ok (None, initial)
  | _ :: _ =>
      match batches_of points batch_size with
      | Py.Raised e => Py.Raised e
      | Py.Ok batches =>
          match import_batches batches initial with
          | Py.Raised e => Py.Raised e
          | Py.Ok st =>
              let st := if String.eqb write_mode "async"
                        then sleep 5 st else st in
              Py.Ok (Some {| total_points := Z.of_nat (List.length points);
                             summary_imported_points := imported_points st;
                             summary_failed_batches := failed_batches st |},
                     st)
          end
      end
  end.

(** *** Vocabulary of the statements about the retry loop *)




End ImportLoop.



End DataImport.

(** ** 12_query_performance.py: [QueryPerformanceTester] *)

Module QueryPerformance.
Local Open Scope string_scope.

(** One dictionary of the list [define_test_queries] returns. *)
Record QueryDef := {
  name : string;
  type : string;
  description : string;
  query : string
}.

Record QueryResult := {
  query_name : string;
  query_type : string;
  execution_times : list Q;
  result_counts : list Z;
  avg_time : Q;
  min_time : Q;
  max_time : Q;
  std_dev : Q;
  throughput : Q;
  success_rate : Q;
  query_text : string
}.

(** The arguments of [__init__] a tester keeps. *)
Record Tester := {
  url : string;
  token : string;
  org : string;
  bucket : string
}.

(** The Flux text of [simple_recent_data]. *)
Definition query_simple_recent_data (self : Tester) : string :=
  Py.unlines
    [ EmptyString;
      "                    from(bucket: " ++ Py.quoted (bucket self)
        ++ ")";
      "                      |> range(start: -1h)";
      "                      |> filter(fn: (r) => r._measurement == "
        ++ Py.quoted "patient_vitals" ++ ")";
      "                      |> filter(fn: (r) => r._field == "
        ++ Py.quoted "vital_value" ++ ")";
      "                      |> limit(n: 1000)";
      "                " ].

(** The Flux text of [time_range_aggregation]. *)
Definition query_time_range_aggregation (self : Tester) : string :=
  Py.unlines
    [ EmptyString;
      "                    from(bucket: " ++ Py.quoted (bucket self)
        ++ ")";
      "                      |> range(start: -24h)";
      "                      |> filter(fn: (r) => r._measurement == "
        ++ Py.quoted "patient_vitals" ++ ")";
      "                      |> filter(fn: (r) => r._field == "
        ++ Py.quoted "vital_value" ++ ")";
      "                      |> aggregateWindow(every: 1h, fn: mean, createEmpty: false)";
      "                " ].

(** The Flux text of [group_by_patient]. *)
Definition query_group_by_patient (self : Tester) : string :=
  Py.unlines
    [ EmptyString;
      "                    from(bucket: " ++ Py.quoted (bucket self)
        ++ ")";
      "                      |> range(start: -24h)";
      "                      |> filter(fn: (r) => r._measurement == "
        ++ Py.quoted "patient_vitals" ++ ")";
      "                      |> filter(fn: (r) => r._field == "
        ++ Py.quoted "vital_value" ++ ")";
      "                      |> group(columns: ["
        ++ Py.quoted "patient_id" ++ ", " ++ Py.quoted "vital_type" ++ "])";
      "                      |> mean()";
      "                      |> sort(columns: [" ++ Py.quoted "_value"
        ++ "], desc: true)";
      "                " ].

(** The Flux text of [complex_aggregation]. *)
Definition query_complex_aggregation (self : Tester) : string :=
  Py.unlines
    [ EmptyString;
      "                    from(bucket: " ++ Py.quoted (bucket self)
        ++ ")";
      "                      |> range(start: -7d)";
      "                      |> filter(fn: (r) => r._measurement == "
        ++ Py.quoted "patient_vitals" ++ ")";
      "                      |> filter(fn: (r) => r._field == "
        ++ Py.quoted "vital_value" ++ ")";
      "                      |> filter(fn: (r) => r.vital_type == "
        ++ Py.quoted "heart_rate_bpm" ++ ")";
      "                      |> group(columns: ["
        ++ Py.quoted "patient_department" ++ "])";
      "                      |> aggregateWindow(";
      "                          every: 1h,";
      "                          fn: (column, tables=<-) => tables";
      "                            |> mean(column: column)";
      "                            |> map(fn: (r) => ({r with _value: round(x: r._value, precision: 1)}))";
      "                        )";
      "                      |> mean()";
      "                " ].

(** The Flux text of [alert_detection]. *)
Definition query_alert_detection (self : Tester) : string :=
  Py.unlines
    [ EmptyString;
      "                    from(bucket: " ++ Py.quoted (bucket self)
        ++ ")";
      "                      |> range(start: -1h)";
      "                      |> filter(fn: (r) => r._measurement == "
        ++ Py.quoted "patient_vitals" ++ ")";
      "                      |> filter(fn: (r) => r._field == "
        ++ Py.quoted "is_alert" ++ ")";
      "                      |> filter(fn: (r) => r._value == true)";
      "                      |> count()";
      "                " ].

(** The Flux text of [join_simulation]. *)
Definition query_join_simulation (self : Tester) : string :=
  Py.unlines
    [ EmptyString;
      "                    alerts = from(bucket: "
        ++ Py.quoted (bucket self) ++ ")";
      "                      |> range(start: -1h)";
      "                      |> filter(fn: (r) => r._measurement == "
        ++ Py.quoted "patient_vitals" ++ ")";
      "                      |> filter(fn: (r) => r._field == "
        ++ Py.quoted "is_alert" ++ ")";
      "                      |> filter(fn: (r) => r._value == true)";
      "                    ";
      "                    vitals = from(bucket: "
        ++ Py.quoted (bucket self) ++ ")";
      "                      |> range(start: -1h)";
      "                      |> filter(fn: (r) => r._measurement == "
        ++ Py.quoted "patient_vitals" ++ ")";
      "                      |> filter(fn: (r) => r._field == "
        ++ Py.quoted "vital_value" ++ ")";
      "                    ";
      "                    join(tables: {alerts: alerts, vitals: vitals}, on: ["
        ++ Py.quoted "patient_id" ++ ", " ++ Py.quoted "_time" ++ "])";
      "                      |> yield(name: " ++ Py.quoted "joined_data"
        ++ ")";
      "                " ].

(** The Flux text of [large_time_range]. *)
Definition query_large_time_range (self : Tester) : string :=
  Py.unlines
    [ EmptyString;
      "                    from(bucket: " ++ Py.quoted (bucket self)
        ++ ")";
      "                      |> range(start: -30d)";
      "                      |> filter(fn: (r) => r._measurement == "
        ++ Py.quoted "patient_vitals" ++ ")";
      "                      |> filter(fn: (r) => r._field == "
        ++ Py.quoted "vital_value" ++ ")";
      "                      |> aggregateWindow(every: 6h, fn: mean, createEmpty: false)";
      "                      |> limit(n: 1000)";
      "                " ].

(** The Flux text of [high_cardinality]. *)
Definition query_high_cardinality (self : Tester) : string :=
  Py.unlines
    [ EmptyString;
      "                    from(bucket: " ++ Py.quoted (bucket self)
        ++ ")";
      "                      |> range(start: -1h)";
      "                      |> filter(fn: (r) => r._measurement == "
        ++ Py.quoted "patient_vitals" ++ ")";
      "                      |> filter(fn: (r) => r._field == "
        ++ Py.quoted "vital_value" ++ ")";
      "                      |> group(columns: ["
        ++ Py.quoted "patient_id" ++ ", " ++ Py.quoted "vital_type" ++ ", "
        ++ Py.quoted "device_id" ++ "])";
      "                      |> count()";
      "                " ].

(** [define_test_queries]. *)
Definition define_test_queries (self : Tester) : list QueryDef :=
  [ {| name := "simple_recent_data";
       type := "simple_select";
       description := "Select recent data with limit";
       query := query_simple_recent_data self |};
    {| name := "time_range_aggregation";
       type := "aggregation";
       description := "Hourly aggregation over 24 hours";
       query := query_time_range_aggregation self |};
    {| name := "group_by_patient";
       type := "group_by";
       description := "Group by patient and calculate statistics";
       query := query_group_by_patient self |};
    {| name := "complex_aggregation";
       type := "complex";
       description := "Multiple aggregations with filtering";
       query := query_complex_aggregation self |};
    {| name := "alert_detection";
       type := "filtering";
       description := "Filter alerts with conditions";
       query := query_alert_detection self |};
    {| name := "join_simulation";
       type := "complex";
       description := "Simulate join-like behavior";
       query := query_join_simulation self |};
    {| name := "large_time_range";
       type := "large_scale";
       description := "Query large time range (30 days)";
       query := query_large_time_range self |};
    {| name := "high_cardinality";
       type := "high_cardinality";
       description := "Query with high cardinality groups";
       query := query_high_cardinality self |} ].

(** What [execute_query] returns: execution time, result count, error. *)
Definition Execution : Type := Q * Z * option string.

(** [if error:] on an [Optional[str]]. *)
Definition is_error (r : Execution) : bool :=
  match snd r with
  | Some msg => Py.truthy_str msg
  | None => false
  end.

Section Runs.

(** [self.client.query_api().query(query, org=self.org)] between two reads
    of [time.perf_counter()]: the answer of the SDK to its n-th call, which
    is the elapsed time with the number of records of the returned tables,
    or the exception raised.  The queries sent so far are the state. *)
Variable query_api : nat -> string -> Py.result (Q * Z).

(** [statistics.stdev], a square root. *)
Variable stdev : list Q -> Q.

(** [for attempt in range(max_retries)] of [execute_query], from [attempt]
    on with [remaining] iterations left. *)
Fixpoint execute_loop (max_retries : Z) (remaining : nat) (attempt : Z)
  (query : string) (sent : list string) : Execution * list string :=
  match remaining with
  | O => ((0, 0%Z, Some "Max retries exceeded"), sent)
  | S remaining' =>
      match query_api (List.length sent) query with
      | Py.Ok (execution_time, result_count) =>
          ((execution_time, result_count, None), (sent ++ [query])%list)
      | Py.Raised e =>
          if (attempt <? max_retries - 1)%Z
          then execute_loop max_retries remaining' (attempt + 1)%Z query
                            (sent ++ [query])%list
          else ((0, 0%Z, Some (Py.exn_str e)), (sent ++ [query])%list)
      end
  end.

Definition execute_query (query : string) (max_retries : Z)
  (sent : list string) : Execution * list string :=
  execute_loop max_retries (Z.to_nat max_retries) 0%Z query sent.

(** The warmup loop: [for i in range(warmup_iterations):
    self.execute_query(query_def["query"])]; the results are dropped. *)
Fixpoint warmup (warmup_iterations : nat) (query : string)
  (sent : list string) : list string :=
  match warmup_iterations with
  | O => sent
  | S n => warmup n query (snd (execute_query query 3 sent))
  end.

(** The three lists the measured loop appends to. *)
Record Samples := {
  s_execution_times : list Q;
  s_result_counts : list Z;
  s_errors : list string
}.

(** The body of [for i in range(iterations)]. *)
Definition record_run (r : Execution) (acc : Samples) : Samples :=
  let '(exec_time, result_count, error) := r in
  if is_error r then
    {| s_execution_times := s_execution_times acc;
       s_result_counts := s_result_counts acc;
       s_errors :=
         (s_errors acc
            ++ [match error with Some msg => msg | None => EmptyString end])%list
    |}
  else
    {| s_execution_times := (s_execution_times acc ++ [exec_time])%list;
       s_result_counts := (s_result_counts acc ++ [result_count])%list;
       s_errors := s_errors acc |}.

Fixpoint measure (iterations : nat) (query : string) (acc : Samples)
  (sent : list string) : Samples * list string :=
  match iterations with
  | O => (acc, sent)
  | S n =>
      let '(r, sent') := execute_query query 3 sent in
      measure n query (record_run r acc) sent'
  end.

(** The "Calculate statistics" block: [None] when no execution succeeded.
    [statistics.mean], [min] and [max] raise on an empty list. *)
Definition statistics_of (query_def : QueryDef) (iterations : Z)
  (acc : Samples) : Py.result (option QueryResult) :=
  let execution_times := s_execution_times acc in
  let result_counts := s_result_counts acc in
  match execution_times with
  | [] => Py.Ok None
  | _ :: _ =>
      match Py.mean execution_times, Py.min execution_times,
            Py.max execution_times, Py.mean (map inject_Z result_counts) with
      | Some avg_time, Some min_time, Some max_time, Some avg_results =>
          let std_dev :=
            if (1 <? List.length execution_times)%nat
            then stdev execution_times else 0 in
          let throughput :=
            if Py.Qltb 0 avg_time then avg_results / avg_time else 0 in
          let success_rate :=
            inject_Z (Z.of_nat (List.length execution_times))
            / inject_Z iterations in
          Py.Ok (Some {| query_name := name query_def;
                         query_type := type query_def;
                         execution_times := execution_times;
                         result_counts := result_counts;
                         avg_time := avg_time;
                         min_time := min_time;
                         max_time := max_time;
                         std_dev := std_dev;
                         throughput := throughput;
                         success_rate := success_rate;
                         query_text := query query_def |})
      | _, _, _, _ =>
          Py.Raised (Py.Exn "StatisticsError"
                            "mean requires at least one data point")
      end
  end.

Definition no_samples : Samples :=
  {| s_execution_times := []; s_result_counts := []; s_errors := [] |}.

(** The body of [for query_def in queries]. *)
Definition test_query (query_def : QueryDef)
  (iterations warmup_iterations : Z) (sent : list string)
  : Py.result (option QueryResult) * list string :=
  let sent := warmup (Z.to_nat warmup_iterations) (query query_def) sent in
  let '(acc, sent) :=
    measure (Z.to_nat iterations) (query query_def) no_samples sent in
  (statistics_of query_def iterations acc, sent).

(** [run_performance_test]: the list [all_results] and the queries sent.
    The calls of [print] and [time.sleep] are left out. *)
Fixpoint run_performance_test (queries : list QueryDef)
  (iterations warmup_iterations : Z) (all_results : list QueryResult)
  (sent : list string) : Py.result (list QueryResult) * list string :=
  match queries with
  | [] => (Py.Ok all_results, sent)
  | query_def :: rest =>
      match test_query query_def iterations warmup_iterations sent with
      | (Py.Ok (Some result), sent') =>
          run_performance_test rest iterations warmup_iterations
                               (all_results ++ [result])%list sent'
      | (Py.Ok None, sent') =>
          run_performance_test rest iterations warmup_iterations
                               all_results sent'
      | (Py.Raised e, sent') => (Py.Raised e, sent')
      end
  end.

(** [run_comprehensive_test], up to the call of [run_performance_test]. *)
Definition run_comprehensive_test (self : Tester)
  : Py.result (list QueryResult) * list string :=
  run_performance_test (define_test_queries self) 5 2 [] [].

(** *** Vocabulary of the statements about the statistics *)

(** The results of the measured calls of [execute_query], in order. *)
Fixpoint measured_runs (iterations : nat) (query : string)
  (sent : list string) : list Execution :=
  match iterations with
  | O => []
  | S n =>
      let '(r, sent') := execute_query query 3 sent in
      r :: measured_runs n query sent'
  end.

(** The runs the loop counts as successful. *)
Definition successful (runs : list Execution) : list Execution :=
  filter (fun r => negb (is_error r)) runs.

Definition time_of (r : Execution) : Q := fst (fst r).
Definition count_of (r : Execution) : Z := snd (fst r).

End Runs.

(** The names of the fixed set of test queries. *)
Definition test_query_names : list string :=
  [ "simple_recent_data"; "time_range_aggregation"; "group_by_patient";
    "complex_aggregation"; "alert_detection"; "join_simulation";
    "large_time_range"; "high_cardinality" ].

(** Two testers for one bucket, with different servers and tokens. *)
Definition tester_a : Tester :=
  {| url := "http://localhost:8086"; token := "token-a"; org := "HealthIoT";
     bucket := "health_iot_metrics" |}.

Definition tester_b : Tester :=
  {| url := "http://influx:8086"; token := "token-b"; org := "Benchmark";
     bucket := "health_iot_metrics" |}.



End QueryPerformance.

(** ** 13_security_tokens.py: [SecurityTokenManager] *)

Module SecurityTokens.
Local Open Scope string_scope.

(** *** Printing and raising

    A computation yields a value or a raised exception, together with the
    lines it printed. *)
Definition M (A : Type) : Type := Py.result A * list string.

Definition ret {A : Type} (a : A) : M A := (Py.Ok a, []).

Definition raise {A : Type} (e : Py.exn) : M A := (Py.Raised e, []).

Definition print (line : string) : M unit := (Py.Ok tt, [line]).

(** The outcome of an SDK call, which prints nothing. *)
Definition call {A : Type} (r : Py.result A) : M A := (r, []).

Definition bind {A B : Type} (m : M A) (f : A -> M B) : M B :=
  match m with
  | (Py.Ok a, out) => let '(r, out') := f a in (r, (out ++ out')%list)
  | (Py.Raised e, out) => (Py.Raised e, out)
  end.

(** [try: body except Exception as e: handler]. *)
Definition try_except {A : Type} (body : M A) (handler : Py.exn -> M A)
  : M A :=
  match body with
  | (Py.Ok a, out) => (Py.Ok a, out)
  | (Py.Raised e, out) =>
      let '(r, out') := handler e in (r, (out ++ out')%list)
  end.

Notation "x <- m ;; k" := (bind m (fun x => k))
  (at level 61, m at next level, right associativity).
Notation "m ;;; k" := (bind m (fun _ => k))
  (at level 61, right associativity).

(** *** The objects of the SDK *)

(** [perm.resource]: [name] and [id] may be [None]. *)
Record PermissionResource := {
  resource_type : string;
  resource_id : option string;
  resource_name : option string;
  resource_org_id : option string;
  resource_org : option string
}.

Record Permission := {
  action : string;
  resource : PermissionResource
}.

(** An authorization of the SDK; [auth_token], [auth_user] and [auth_org]
    are [None] when the object has no such attribute. *)
Record Authorization := {
  auth_id : string;
  auth_description : option string;
  auth_permissions : list Permission;
  auth_created_at : string;
  auth_updated_at : string;
  auth_status : string;
  auth_token : option string;
  auth_user : option string;
  auth_user_id : string;
  auth_org : option string;
  auth_org_id : string
}.

(** The argument of [create_authorization]. *)
Record NewAuthorization := {
  new_org_id : string;
  new_user_id : option string;
  new_description : string;
  new_permissions : list Permission;
  new_status : string
}.

Record TokenInfo := {
  id : string;
  description : string;
  permissions : list string;
  created_at : string;
  updated_at : string;
  status : string;
  user_name : string;
  user_id : string;
  org_name : string;
  org_id : string
}.

(** [self.client] and the file system, as the answers they give. *)
Record Client := {
  find_authorizations : string -> option string
                        -> Py.result (list Authorization);
  find_authorization_by_id : string -> Py.result Authorization;
  create_authorization : NewAuthorization -> Py.result Authorization;
  update_authorization : string -> option string -> option string
                         -> Py.result unit;
  delete_authorization : string -> Py.result unit;
  find_organizations : string -> Py.result (list string);
  find_bucket_by_name : string -> Py.result (option string);
  write_json : string -> list TokenInfo -> Py.result unit
}.

(** The manager: its client and [self.org]. *)
Record Manager := {
  client : Client;
  org : string
}.

(** *** The methods *)

Definition truthy_opt (o : option string) : bool :=
  match o with Some s => Py.truthy_str s | None => false end.

Definition opt_str (o : option string) : string :=
  match o with Some s => s | None => EmptyString end.

(** The string appended to [permissions] for one permission. *)
Definition permission_text (perm : Permission) : string :=
  let action := action perm in
  let resource_type := resource_type (resource perm) in
  if truthy_opt (resource_name (resource perm)) then
    action ++ " " ++ resource_type ++ " '"
      ++ opt_str (resource_name (resource perm)) ++ "'"
  else if truthy_opt (resource_id (resource perm)) then
    action ++ " " ++ resource_type ++ " with id '"
      ++ opt_str (resource_id (resource perm)) ++ "'"
  else action ++ " " ++ resource_type.

(** The "Create token info" block of [list_tokens] and [get_token_info]. *)
Definition token_info_of (self : Manager) (auth : Authorization) : TokenInfo :=
  {| id := auth_id auth;
     description := if truthy_opt (auth_description auth)
                    then opt_str (auth_description auth)
                    else "No description";
     permissions := map permission_text (auth_permissions auth);
     created_at := auth_created_at auth;
     updated_at := auth_updated_at auth;
     status := if String.eqb (auth_status auth) "active"
               then "active" else "inactive";
     user_name := match auth_user auth with
                  | Some u => u
                  | None => "Unknown"
                  end;
     user_id := auth_user_id auth;
     org_name := match auth_org auth with
                 | Some o => o
                 | None => org self
                 end;
     org_id := auth_org_id auth |}.

Definition list_tokens (self : Manager) (user_id : option string)
  : M (list TokenInfo) :=
  try_except
    (authorizations <- call (find_authorizations (client self) (org self)
                                                 user_id) ;;
     ret (map (token_info_of self) authorizations))
    (fun e =>
       print ("Error listing tokens: " ++ Py.exn_str e) ;;;
       ret []).

Definition get_token_info (self : Manager) (token_id : string)
  : M (option TokenInfo) :=
  try_except
    (auth <- call (find_authorization_by_id (client self) token_id) ;;
     ret (Some (token_info_of self auth)))
    (fun e =>
       print ("Error getting token info: " ++ Py.exn_str e) ;;;
       ret None).

Definition get_org_id (self : Manager) : M string :=
  try_except
    (orgs <- call (find_organizations (client self) (org self)) ;;
     match orgs with
     | o :: _ => ret o
     | [] => raise (Py.Exn "ValueError"
                           ("Organization '" ++ org self ++ "' not found"))
     end)
    (fun e =>
       print ("Error getting org ID: " ++ Py.exn_str e) ;;;
       raise e).

Definition get_bucket_id (self : Manager) (bucket_name : string) : M string :=
  try_except
    (bucket <- call (find_bucket_by_name (client self) bucket_name) ;;
     match bucket with
     | Some b => ret b
     | None => raise (Py.Exn "ValueError"
                             ("Bucket '" ++ bucket_name ++ "' not found"))
     end)
    (fun e =>
       print ("Error getting bucket ID: " ++ Py.exn_str e) ;;;
       raise e).

(** One dictionary of the [permissions] argument of [create_token]:
    [perm["resource_type"]] and [perm["action"]] raise [KeyError] when the key
    is missing, the other keys are read with [get]. *)
Definition permission_of (perm : Py.dict string) : M Permission :=
  match Py.lookup "resource_type" perm with
  | None => raise (Py.Exn "KeyError" "'resource_type'")
  | Some rt =>
      match Py.lookup "action" perm with
      | None => raise (Py.Exn "KeyError" "'action'")
      | Some a =>
          ret {| action := a;
                 resource :=
                   {| resource_type := rt;
                      resource_id := Py.lookup "resource_id" perm;
                      resource_name := Py.lookup "resource_name" perm;
                      resource_org_id := Py.lookup "org_id" perm;
                      resource_org := Py.lookup "org_name" perm |} |}
      end
  end.

Fixpoint permissions_of (perms : list (Py.dict string)) : M (list Permission) :=
  match perms with
  | [] => ret []
  | perm :: rest =>
      p <- permission_of perm ;;
      ps <- permissions_of rest ;;
      ret (p :: ps)
  end.

Definition announce_token (created_auth : Authorization) : M unit :=
  match auth_token created_auth with
  | Some token_value =>
      print (Py.nl ++ "Token created successfully!") ;;;
      print ("Token: " ++ token_value) ;;;
      print "IMPORTANT: Save this token now. It won't be shown again."
  | None => ret tt
  end.

Definition create_token (self : Manager) (description : string)
  (permissions : list (Py.dict string)) (user_id : option string)
  : M (option TokenInfo) :=
  try_except
    (influx_permissions <- permissions_of permissions ;;
     the_org_id <- get_org_id self ;;
     created_auth <-
       call (create_authorization (client self)
               {| new_org_id := the_org_id;
                  new_user_id := user_id;
                  new_description := description;
                  new_permissions := influx_permissions;
                  new_status := "active" |}) ;;
     announce_token created_auth ;;;
     get_token_info self (auth_id created_auth))
    (fun e =>
       print ("Error creating token: " ++ Py.exn_str e) ;;;
       ret None).

Definition update_token (self : Manager) (token_id : string)
  (description status : option string) : M (option TokenInfo) :=
  try_except
    (call (update_authorization (client self) token_id description status) ;;;
     print "Token updated successfully" ;;;
     get_token_info self token_id)
    (fun e =>
       print ("Error updating token: " ++ Py.exn_str e) ;;;
       ret None).

Definition delete_token (self : Manager) (token_id : string) : M bool :=
  try_except
    (call (delete_authorization (client self) token_id) ;;;
     print "Token deleted successfully" ;;;
     ret true)
    (fun e =>
       print ("Error deleting token: " ++ Py.exn_str e) ;;;
       ret false).

(** [export_tokens]: the data handed to [json.dump] are the fields of the
    listed tokens. *)
Definition export_tokens (self : Manager) (output_file : string) : M bool :=
  try_except
    (tokens <- list_tokens self None ;;
     call (write_json (client self) output_file tokens) ;;;
     print ("Exported " ++ Py.str_of_N (N.of_nat (List.length tokens))
            ++ " tokens to " ++ output_file) ;;;
     ret true)
    (fun e =>
       print ("Error exporting tokens: " ++ Py.exn_str e) ;;;
       ret false).

(** *** Vocabulary of the statements about the handlers *)

(** The computation returns [v]: nothing is raised. *)
Definition returns {A : Type} (m : M A) (v : A) : Prop := fst m = Py.Ok v.

(** The computation raises [e]. *)
Definition raises {A : Type} (m : M A) (e : Py.exn) : Prop :=
  fst m = Py.Raised e.

(** The line was printed. *)
Definition printed {A : Type} (m : M A) (line : string) : Prop :=
  In line (snd m).

(** An SDK that is down: every call raises, only the file system works. *)
Definition unreachable : Py.exn :=
  Py.Exn "ConnectionError" "connection refused".

Definition offline : Client :=
  {| find_authorizations := fun _ _ => Py.Raised unreachable;
     find_authorization_by_id := fun _ => Py.Raised unreachable;
     create_authorization := fun _ => Py.Raised unreachable;
     update_authorization := fun _ _ _ => Py.Raised unreachable;
     delete_authorization := fun _ => Py.Raised unreachable;
     find_organizations := fun _ => Py.Raised unreachable;
     find_bucket_by_name := fun _ => Py.Raised unreachable;
     write_json := fun _ _ => Py.Ok tt |}.

Definition offline_manager : Manager :=
  {| client := offline; org := "HealthIoT" |}.

End SecurityTokens.

(** ** 01_generate_health_iot_dataset.py *)

Module Dataset.
Local Open Scope string_scope.

(** [[f"PATIENT_{str(i).zfill(5)}" for i in range(1, 101)]]. *)
Definition patients : list string :=
  map (fun i => "PATIENT_" ++ Py.zfill (Py.str_of_N (N.of_nat i)) 5)
      (seq 1 100).

(** [[f"DEVICE_{str(i).zfill(3)}" for i in range(1, 21)]]. *)
Definition devices : list string :=
  map (fun i => "DEVICE_" ++ Py.zfill (Py.str_of_N (N.of_nat i)) 3)
      (seq 1 20).

Definition departments : list string :=
  [ "ICU"; "WARD"; "OUTPATIENT"; "EMERGENCY"; "CARDIOLOGY" ].

Definition vital_types : list string :=
  [ "heart_rate_bpm"; "blood_pressure_sys_mmhg"; "blood_pressure_dia_mmhg";
    "spo2_percent"; "temperature_c"; "respiratory_rate_bpm";
    "blood_glucose_mgdl" ].

(** [vital_ranges]: (min, max, typical). *)
Definition vital_ranges : Py.dict (Q * Q * Q) :=
  [ ("heart_rate_bpm", (40, 180, 72));
    ("blood_pressure_sys_mmhg", (80, 200, 120));
    ("blood_pressure_dia_mmhg", (50, 120, 80));
    ("spo2_percent", (70, 100, 98));
    ("temperature_c", (35, 41, 368 # 10));
    ("respiratory_rate_bpm", (8, 40, 16));
    ("blood_glucose_mgdl", (70, 400, 100)) ].

(** The random numbers one record consumes: the four indices drawn by
    [random.choice], the [random.random()] behind [random.uniform] and the
    [random.random()] of the alert flag (unused draws are ignored). *)
Record Draw := {
  patient_draw : nat;
  device_draw : nat;
  department_draw : nat;
  vital_draw : nat;
  uniform_draw : Q;
  alert_draw : Q
}.

(** [random.choice(seq)] for the drawn index. *)
Definition choice (seq : list string) (k : nat) : string :=
  nth (k mod List.length seq) seq EmptyString.

(** [random.uniform(a, b)], which is [a + (b - a) * random()]. *)
Definition uniform (a b u : Q) : Q := a + (b - a) * u.

(** A row of the data frame; a [None] is a null cell. *)
Record Row := {
  timestamp : option Z;
  patient_id : option string;
  device_id : string;
  vital_type : option string;
  value : option Q;
  alert_flag : Z;
  department : string;
  data_sensitivity : string;
  ingestion_batch : string
}.

(** [timestamps[i]], in seconds after [base_time] (2025-01-01 00:00:00), and
    its [hour]. *)
Definition timestamp_of (i : nat) : Z := (Z.of_nat i * 2)%Z.
Definition hour_of (t : Z) : Z := ((t / 3600) mod 24)%Z.

Definition base_value_of (vital_type : string) (typical : Q) (hour : Z)
  (u : Q) : Q :=
  if String.eqb vital_type "heart_rate_bpm" then
    if (2 <=? hour)%Z && (hour <=? 6)%Z then typical - 10 + uniform (-5) 5 u
    else if (8 <=? hour)%Z && (hour <=? 18)%Z
         then typical + 5 + uniform (-10) 10 u
         else typical + uniform (-8) 8 u
  else typical + uniform (- (2 # 10) * typical) ((2 # 10) * typical) u.

Definition alert_flag_of (vital_type : string) (value alert_u : Q) : Z :=
  if String.eqb vital_type "heart_rate_bpm" then
    if Py.Qltb 120 value || Py.Qltb value 50 then 1%Z else 0%Z
  else if String.eqb vital_type "spo2_percent" then
    if Py.Qltb value 92 then 1%Z else 0%Z
  else if String.eqb vital_type "blood_pressure_sys_mmhg" then
    if Py.Qltb 160 value || Py.Qltb value 90 then 1%Z else 0%Z
  else if Py.Qltb alert_u (5 # 100) then 1%Z else 0%Z.

(** The body of [for i in range(num_records)]. *)
Definition record_of (i : nat) (d : Draw) : Py.result Row :=
  let patient := choice patients (patient_draw d) in
  let device := choice devices (device_draw d) in
  let department := choice departments (department_draw d) in
  let vital_type := choice vital_types (vital_draw d) in
  match Py.lookup vital_type vital_ranges with
  | None => Py.Raised (Py.Exn "KeyError" vital_type)
  | Some (min_val, max_val, typical) =>
      let base_value :=
        base_value_of vital_type typical (hour_of (timestamp_of i))
                      (uniform_draw d) in
      let value := Py.max2 min_val (Py.min2 max_val base_value) in
      let alert_flag := alert_flag_of vital_type value (alert_draw d) in
      Py.Ok {| timestamp := Some (timestamp_of i);
               patient_id := Some patient;
               device_id := device;
               vital_type := Some vital_type;
               value := Some (Py.round value 2);
               alert_flag := alert_flag;
               department := department;
               data_sensitivity := "PHI";
               ingestion_batch :=
                 "BATCH_"
                 ++ Py.zfill (Py.str_of_N (N.of_nat (i / 1000 + 1))) 3 |}
  end.

(** The records [start .. start + count - 1]. *)
Fixpoint records_from (count start : nat) (draws : nat -> Draw)
  : Py.result (list Row) :=
  match count with
  | O => Py.Ok []
  | S count' =>
      match record_of start (draws start) with
      | Py.Raised e => Py.Raised e
      | Py.Ok r =>
          match records_from count' (S start) draws with
          | Py.Raised e => Py.Raised e
          | Py.Ok rs => Py.Ok (r :: rs)
          end
      end
  end.

(** [generate_health_iot_data], up to the data frame: [timestamps[0]] in the
    second [print] raises [IndexError] when no record is asked for. *)
Definition generate_health_iot_data (num_records : Z) (draws : nat -> Draw)
  : Py.result (list Row) :=
  if (num_records <=? 0)%Z
  then Py.Raised (Py.Exn "IndexError" "list index out of range")
  else records_from (Z.to_nat num_records) 0 draws.

(** *** [validate_dataset] *)

Definition is_null {A : Type} (cell : option A) : bool :=
  match cell with Some _ => false | None => true end.

(** Check 1: [df[critical_cols].isnull().sum().sum() == 0]. *)
Definition null_check (df : list Row) : bool :=
  forallb (fun r => negb (is_null (timestamp r))
                    && negb (is_null (patient_id r))
                    && negb (is_null (vital_type r))
                    && negb (is_null (value r))) df.

(** Check 2: [df["timestamp"].is_monotonic_increasing]; a null breaks it. *)
Fixpoint is_monotonic_increasing (column : list (option Z)) : bool :=
  match column with
  | [] => true
  | None :: _ => false
  | Some a :: rest =>
      match rest with
      | [] => true
      | None :: _ => false
      | Some b :: _ => (a <=? b)%Z && is_monotonic_increasing rest
      end
  end.

(** [df["vital_type"].unique()], nulls apart. *)
Fixpoint unique (seen : list string) (column : list (option string))
  : list string :=
  match column with
  | [] => []
  | None :: rest => unique seen rest
  | Some s :: rest =>
      if existsb (String.eqb s) seen then unique seen rest
      else s :: unique (s :: seen) rest
  end.

(** [df[df["vital_type"] == vital_type]["value"]], nulls apart. *)
Fixpoint values_of (vital : string) (df : list Row) : list Q :=
  match df with
  | [] => []
  | r :: rest =>
      match vital_type r, value r with
      | Some vt, Some v =>
          if String.eqb vt vital then v :: values_of vital rest
          else values_of vital rest
      | _, _ => values_of vital rest
      end
  end.

(** Check 3: no vital type other than the temperature has a negative
    minimum. *)
Definition value_ranges_valid (df : list Row) : bool :=
  forallb
    (fun vital =>
       match Py.min (values_of vital df) with
       | Some m =>
           negb (Py.Qltb m 0
                 && negb (existsb (String.eqb vital) ["temperature_c"]))
       | None => true
       end)
    (unique [] (map vital_type df)).

(** Check 4: [df["alert_flag"].isin([0, 1]).all()]. *)
Definition alert_binary_check (df : list Row) : bool :=
  forallb (fun r => (alert_flag r =? 0)%Z || (alert_flag r =? 1)%Z) df.

Definition is_digit (c : ascii) : bool :=
  let n := nat_of_ascii c in (48 <=? n)%nat && (n <=? 57)%nat.

(** [re.match(r"^PATIENT_\d{5}$", s)] on ASCII text: the prefix, five
    digits, and then the end of the string or a final newline. *)
Definition matches_patient_pattern (s : string) : bool :=
  String.prefix "PATIENT_" s
  && (let rest := String.substring 8 (String.length s - 8) s in
      match rest with
      | String d1 (String d2 (String d3 (String d4 (String d5 tail)))) =>
          is_digit d1 && is_digit d2 && is_digit d3 && is_digit d4
          && is_digit d5
          && (String.eqb tail EmptyString || String.eqb tail Py.nl)
      | _ => false
      end).

(** Check 5: [df["patient_id"].str.match(...).all()], nulls apart. *)
Definition patient_pattern_check (df : list Row) : bool :=
  forallb (fun r => match patient_id r with
                    | Some s => matches_patient_pattern s
                    | None => true
                    end) df.

Definition validate_dataset (df : list Row) : bool :=
  null_check df
  && is_monotonic_increasing (map timestamp df)
  && value_ranges_valid df
  && alert_binary_check df
  && patient_pattern_check df.

(** *** Vocabulary of the statements about the data set *)

(** What every generated row satisfies. *)
Definition generated_row (i : nat) (r : Row) : Prop :=
  timestamp r = Some (Z.of_nat i * 2)%Z /\
  (exists p, patient_id r = Some p /\ In p patients
             /\ matches_patient_pattern p = true) /\
  (exists vt lo hi typical v,
     vital_type r = Some vt /\ In vt vital_types /\
     Py.lookup vt vital_ranges = Some (lo, hi, typical) /\
     value r = Some v /\ lo <= v /\ v <= hi /\ 0 <= v) /\
  (alert_flag r = 0%Z \/ alert_flag r = 1%Z).

(** Draws that are the same for every record. *)
Definition constant_draws (i : nat) : Draw :=
  {| patient_draw := 41; device_draw := 7; department_draw := 3;
     vital_draw := i; uniform_draw := 3 # 4; alert_draw := 1 # 50 |}.

End Dataset.

(* ===================================================================== *)
(** * Part II: theorems                                                   *)
(* ===================================================================== *)

(** ** Facts about the Python built-ins *)

Module PyFacts.

Lemma Qltb_lt (x y : Q) : Py.Qltb x y = true <-> x < y.
Proof.
  unfold Py.Qltb. rewrite negb_true_iff.
  destruct (Qle_bool y x) eqn:E.
  - apply Qle_bool_iff in E. split; [discriminate | intro H].
    exfalso. apply (Qlt_not_le _ _ H E).
  - split; [intros _ | reflexivity].
    apply Qnot_le_lt. intro H. apply Qle_bool_iff in H. congruence.
Qed.

Lemma Qltb_ge (x y : Q) : Py.Qltb x y = false <-> y <= x.
Proof.
  unfold Py.Qltb. rewrite negb_false_iff. apply Qle_bool_iff.
Qed.

Lemma Qltb_spec (x y : Q) : BoolSpec (x < y) (y <= x) (Py.Qltb x y).
Proof.
  destruct (Py.Qltb x y) eqn:E; constructor.
  - now apply Qltb_lt.
  - now apply Qltb_ge.
Qed.

End PyFacts.

(** ** Index analyzer *)

Module IndexingPerformanceFacts.
Import IndexingPerformance.






End IndexingPerformanceFacts.

(** ** Strings and rounding *)

Module PyStringFacts.

Lemma prefix_app (p s : string) :
  String.prefix p s = true <-> exists t, s = (p ++ t)%string.
Proof.
  revert s. induction p as [|c p IH]; intros s.
  - split; [intros _; now exists s | intros _; now destruct s].
  - destruct s as [|d s]; cbn.
    + split; [discriminate | intros [t H]; discriminate H].
    + destruct (ascii_dec c d) as [->|Hcd].
      * rewrite IH. split; intros [t H]; exists t.
        -- now rewrite H.
        -- now inversion H.
      * split; [discriminate | intros [t H]; inversion H; congruence].
Qed.

Lemma str_in_substring (needle hay : string) :
  Py.str_in needle hay = true <-> Py.substring_of needle hay.
Proof.
  unfold Py.substring_of.
  induction hay as [|c hay IH]; cbn [Py.str_in]; rewrite orb_true_iff.
  - rewrite prefix_app. split.
    + intros [[t H]|H]; [|discriminate]. now exists EmptyString, t.
    + intros [pre [suf H]]. left.
      destruct pre; [now exists suf | discriminate H].
  - rewrite prefix_app, IH. split.
    + intros [[t H]|[pre [suf H]]].
      * now exists EmptyString, t.
      * exists (String c pre), suf. cbn. now rewrite H.
    + intros [pre [suf H]]. destruct pre as [|d pre].
      * left. now exists suf.
      * right. cbn in H. inversion H. now exists pre, suf.
Qed.

End PyStringFacts.

Module PyRoundFacts.

Lemma round_half_even_comp (x y : Q) :
  x == y -> Py.round_half_even x = Py.round_half_even y.
Proof.
  intros H. unfold Py.round_half_even.
  assert (Hf : Qfloor x = Qfloor y) by now rewrite H.
  rewrite Hf.
  assert (Hc : Qcompare (x - inject_Z (Qfloor y)) (1 # 2)
               = Qcompare (y - inject_Z (Qfloor y)) (1 # 2)) by now rewrite H.
  now rewrite Hc.
Qed.

Lemma round_half_even_Z (z : Z) : Py.round_half_even (inject_Z z) = z.
Proof.
  unfold Py.round_half_even. rewrite Qfloor_Z.
  destruct (Qcompare_spec (inject_Z z - inject_Z z) (1 # 2)) as [H|H|H].
  - exfalso. lra.
  - reflexivity.
  - exfalso. lra.
Qed.

(** Rounding never crosses an integer. *)
Lemma round_half_even_ge (a : Z) (x : Q) :
  inject_Z a <= x -> (a <= Py.round_half_even x)%Z.
Proof.
  intros Ha.
  assert (Hfa : (a <= Qfloor x)%Z).
  { rewrite <- (Qfloor_Z a). now apply Qfloor_resp_le. }
  unfold Py.round_half_even.
  destruct (Qcompare (x - inject_Z (Qfloor x)) (1 # 2));
    [destruct (Z.even (Qfloor x))| |]; lia.
Qed.

Lemma round_half_even_le (b : Z) (x : Q) :
  x <= inject_Z b -> (Py.round_half_even x <= b)%Z.
Proof.
  intros Hb.
  assert (Hfb : (Qfloor x <= b)%Z).
  { rewrite <- (Qfloor_Z b). now apply Qfloor_resp_le. }
  assert (Hlo : inject_Z (Qfloor x) <= x) by apply Qfloor_le.
  unfold Py.round_half_even.
  assert (Hup : 0 < x - inject_Z (Qfloor x) -> (Qfloor x + 1 <= b)%Z).
  { intros Hpos.
    assert (Hlt : inject_Z (Qfloor x) < inject_Z b) by lra.
    rewrite <- Zlt_Qlt in Hlt. lia. }
  destruct (Qcompare_spec (x - inject_Z (Qfloor x)) (1 # 2)) as [H|H|H].
  - destruct (Z.even (Qfloor x)); [lia|]. apply Hup. lra.
  - lia.
  - apply Hup. lra.
Qed.

Lemma pow10_pos (n : nat) : (0 < Py.pow10 n)%Z.
Proof. unfold Py.pow10. apply Z.pow_pos_nonneg; lia. Qed.

Lemma inject_pow10_pos (n : nat) : 0 < inject_Z (Py.pow10 n).
Proof. change 0 with (inject_Z 0). rewrite <- Zlt_Qlt. apply pow10_pos. Qed.

Lemma round_comp (x y : Q) (n : nat) : x == y -> Py.round x n == Py.round y n.
Proof.
  intros H. unfold Py.round.
  rewrite (round_half_even_comp (x * inject_Z (Py.pow10 n))
                                (y * inject_Z (Py.pow10 n))); [reflexivity|].
  now rewrite H.
Qed.

(** A number with at most [n] decimals is its own rounding. *)
Lemma round_exact (z : Z) (n : nat) (x : Q) :
  x * inject_Z (Py.pow10 n) == inject_Z z -> Py.round x n == x.
Proof.
  intros H. unfold Py.round.
  rewrite (round_half_even_comp _ _ H), round_half_even_Z.
  pose proof (inject_pow10_pos n) as Hp.
  rewrite <- H. field. lra.
Qed.

(** Rounding to [n] decimals never crosses an integer. *)
Lemma round_ge (a : Z) (x : Q) (n : nat) :
  inject_Z a <= x -> inject_Z a <= Py.round x n.
Proof.
  intros Ha. unfold Py.round.
  pose proof (inject_pow10_pos n) as Hp.
  assert (H1 : (a * Py.pow10 n <= Py.round_half_even
                                   (x * inject_Z (Py.pow10 n)))%Z).
  { apply round_half_even_ge. rewrite inject_Z_mult.
    apply Qmult_le_compat_r; lra. }
  rewrite Zle_Qle, inject_Z_mult in H1.
  apply Qle_shift_div_l; [exact Hp | exact H1].
Qed.

Lemma round_le (b : Z) (x : Q) (n : nat) :
  x <= inject_Z b -> Py.round x n <= inject_Z b.
Proof.
  intros Hb. unfold Py.round.
  pose proof (inject_pow10_pos n) as Hp.
  assert (H2 : (Py.round_half_even (x * inject_Z (Py.pow10 n))
                <= b * Py.pow10 n)%Z).
  { apply round_half_even_le. rewrite inject_Z_mult.
    apply Qmult_le_compat_r; lra. }
  rewrite Zle_Qle, inject_Z_mult in H2.
  apply Qle_shift_div_r; [exact Hp | exact H2].
Qed.

End PyRoundFacts.

(** ** Security analyzer *)

Module SecurityAnalysisFacts.
Import SecurityAnalysis.
Local Open Scope string_scope.

Lemma requirements_loop (features : list Feature) (database : string)
  (reqs : list string) (score : Z) (ds : list Detail) :
  fold_left (assess_requirement features database) reqs (score, ds)
  = ((score
      + Z.of_nat (List.length
                    (filter (fun r => existsb (mentions r) features) reqs)))%Z,
     (ds ++ map (detail_for features database) reqs)%list).
Proof.
  revert score ds. induction reqs as [|r reqs IH]; intros score ds.
  - cbn. now rewrite Z.add_0_r, app_nil_r.
  - assert (Hstep : assess_requirement features database (score, ds) r
                    = ((score + if existsb (mentions r) features
                                then 1 else 0)%Z,
                       (ds ++ [detail_for features database r])%list)).
    { unfold assess_requirement, detail_for.
      destruct (existsb (mentions r) features);
        rewrite ?Z.add_0_r; reflexivity. }
    cbn [fold_left filter map]. rewrite Hstep, IH, <- app_assoc.
    destruct (existsb (mentions r) features); cbn [List.length app];
      f_equal; lia.
Qed.

Lemma mentions_iff (req : string) (f : Feature) :
  mentions req f = true <->
  Py.substring_of req (Py.lower (description f))
  \/ Py.substring_of req (Py.lower (feature f)).
Proof.
  unfold mentions. rewrite orb_true_iff.
  now rewrite !PyStringFacts.str_in_substring.
Qed.

Lemma detail_for_status (features : list Feature) (database req : string) :
  let d := detail_for features database req in
  d_requirement d = req /\
  (d_status d = "Compliant" \/ d_status d = "Non-Compliant") /\
  (d_status d = "Compliant" <->
   exists f, In f features /\
     (Py.substring_of req (Py.lower (description f))
      \/ Py.substring_of req (Py.lower (feature f)))).
Proof.
  cbv zeta. unfold detail_for.
  destruct (existsb (mentions req) features) eqn:E; cbn.
  - repeat split; auto. intros _.
    apply existsb_exists in E. destruct E as [f [Hin Hm]].
    exists f. split; [exact Hin | now apply mentions_iff].
  - repeat split; auto; [discriminate|].
    intros [f [Hin Hm]]. exfalso.
    assert (existsb (mentions req) features = true); [|congruence].
    apply existsb_exists. exists f. split; [exact Hin | now apply mentions_iff].
Qed.

Lemma assess_framework_spec (features : list Feature) (database : string)
  (fw : Framework) :
  let c := assess_framework features database fw in
  let raw := if (0 <? total fw)%Z
             then inject_Z (matched features fw) / inject_Z (total fw) * 100
             else 0 in
  framework c = name fw /\
  details c = map (detail_for features database) (requirements fw) /\
  score c = Py.round raw 2 /\
  status c = _get_compliance_status raw.
Proof.
  cbv zeta. unfold assess_framework, matched, total.
  rewrite requirements_loop. cbn. repeat split.
Qed.

Lemma status_comp (x y : Q) :
  x == y -> _get_compliance_status x = _get_compliance_status y.
Proof.
  intros H. unfold _get_compliance_status.
  now rewrite !(Qleb_comp _ _ (Qeq_refl _) _ _ H).
Qed.

Lemma status_thresholds (s : Q) :
  (90 <= s -> _get_compliance_status s = "Fully Compliant") /\
  (70 <= s /\ s < 90 -> _get_compliance_status s = "Mostly Compliant") /\
  (50 <= s /\ s < 70 -> _get_compliance_status s = "Partially Compliant") /\
  (s < 50 -> _get_compliance_status s = "Non-Compliant").
Proof.
  unfold _get_compliance_status.
  destruct (Qle_bool 90 s) eqn:E90; [apply Qle_bool_iff in E90|];
  (destruct (Qle_bool 70 s) eqn:E70; [apply Qle_bool_iff in E70|]);
  (destruct (Qle_bool 50 s) eqn:E50; [apply Qle_bool_iff in E50|]);
  repeat split; intros; try reflexivity; exfalso;
  repeat match goal with
         | H : Qle_bool ?a ?b = false |- _ =>
             assert (~ a <= b) by (rewrite <- Qle_bool_iff; congruence);
             clear H
         end; lra.
Qed.

(** With five requirements the score is a multiple of 20 and rounding to two
    decimals leaves it as it is. *)
Lemma five_requirements_exact (m : Z) :
  Py.round (inject_Z m / inject_Z 5 * 100) 2 == inject_Z m / inject_Z 5 * 100.
Proof.
  apply (PyRoundFacts.round_exact (m * 2000)).
  change (Py.pow10 2) with 100%Z. rewrite inject_Z_mult.
  change (inject_Z 5) with 5. change (inject_Z 100) with 100.
  change (inject_Z 2000) with 2000. field.
Qed.

(** C2. For every framework of [self.security_frameworks] and every feature
    list, [_assess_compliance] marks a requirement 'Compliant' exactly when
    its snake_case name is a substring of the lowercased description or of
    the lowercased feature name of some entry of the list; the score is
    (matched requirements / all requirements) * 100 rounded to two decimals,
    and the status follows from the score by the thresholds 90, 70 and 50. *)
Theorem C2_assess_compliance :
  forall (features : list Feature) (database key : string) (fw : Framework),
    In (key, fw) security_frameworks ->
    exists c : Compliance,
      Py.lookup key (_assess_compliance features database) = Some c /\
      framework c = name fw /\
      map d_requirement (details c) = requirements fw /\
      (forall d, In d (details c) ->
         (d_status d = "Compliant" \/ d_status d = "Non-Compliant") /\
         (d_status d = "Compliant" <->
          exists f, In f features /\
            (Py.substring_of (d_requirement d) (Py.lower (description f))
             \/ Py.substring_of (d_requirement d) (Py.lower (feature f))))) /\
      score c
        = Py.round (inject_Z (matched features fw) / inject_Z (total fw) * 100)
                   2 /\
      status c = _get_compliance_status (score c) /\
      (90 <= score c -> status c = "Fully Compliant") /\
      (70 <= score c /\ score c < 90 -> status c = "Mostly Compliant") /\
      (50 <= score c /\ score c < 70 -> status c = "Partially Compliant") /\
      (score c < 50 -> status c = "Non-Compliant").
Proof.
  intros features database key fw Hin.
  exists (assess_framework features database fw).
  destruct (assess_framework_spec features database fw)
    as (Hname & Hdet & Hscore & Hstatus).
  assert (Htot : total fw = 5%Z).
  { cbn in Hin. destruct Hin as [H|[H|[H|[]]]]; inversion H; reflexivity. }
  rewrite Htot in Hscore, Hstatus. cbn [Z.ltb Z.compare] in Hscore, Hstatus.
  assert (Hst : status (assess_framework features database fw)
                = _get_compliance_status
                    (score (assess_framework features database fw))).
  { rewrite Hstatus, Hscore. apply status_comp. symmetry.
    apply five_requirements_exact. }
  split; [|split; [|split; [|split; [|split; [|split]]]]].
  - cbn in Hin. destruct Hin as [H|[H|[H|[]]]]; inversion H; reflexivity.
  - exact Hname.
  - rewrite Hdet, map_map. rewrite <- (map_id (requirements fw)) at 2.
    apply map_ext. intros r. apply (detail_for_status features database r).
  - intros d Hd. rewrite Hdet in Hd. apply in_map_iff in Hd.
    destruct Hd as [r [<- _]].
    destruct (detail_for_status features database r) as (Hr & H1 & H2).
    rewrite Hr. split; assumption.
  - rewrite Htot. exact Hscore.
  - exact Hst.
  - rewrite Hst. apply status_thresholds.
Qed.

(** The theorem at the HIPAA framework and the InfluxDB feature list. *)
Lemma C2_assess_compliance_witness :
  In ("hipaa", {| name := "HIPAA";
                  requirements := [ "access_controls"; "audit_trails";
                                    "data_encryption"; "authentication";
                                    "authorization" ] |})
     security_frameworks /\
  exists c : Compliance,
    Py.lookup "hipaa" (_assess_compliance influx_features "InfluxDB") = Some c /\
    status c = _get_compliance_status (score c).
Proof.
  assert (Hin : In ("hipaa",
                    {| name := "HIPAA";
                       requirements := [ "access_controls"; "audit_trails";
                                         "data_encryption"; "authentication";
                                         "authorization" ] |})
                   security_frameworks) by (left; reflexivity).
  split; [exact Hin|].
  destruct (C2_assess_compliance influx_features "InfluxDB" _ _ Hin)
    as [c (Hl & _ & _ & _ & _ & Hs & _)].
  exists c. split; assumption.
Defined.

(** C3. For the PostgreSQL and the MongoDB feature lists every framework gets
    score 0 and status 'Non-Compliant', as no requirement token is a
    substring of a lowercased feature name or description; for the InfluxDB
    list HIPAA gets exactly 20.0, with 'authentication' the only requirement
    met, and GDPR and ISO 27001 get 0. *)
Theorem C3_hardcoded_feature_lists :
  summary_is (_assess_compliance pg_features "PostgreSQL")
             [ ("hipaa", 0, "Non-Compliant"); ("gdpr", 0, "Non-Compliant");
               ("iso_27001", 0, "Non-Compliant") ] /\
  summary_is (_assess_compliance mongo_features "MongoDB")
             [ ("hipaa", 0, "Non-Compliant"); ("gdpr", 0, "Non-Compliant");
               ("iso_27001", 0, "Non-Compliant") ] /\
  (forall req f, In req all_requirements ->
                 In f (pg_features ++ mongo_features)%list ->
                 ~ Py.substring_of req (Py.lower (feature f)) /\
                 ~ Py.substring_of req (Py.lower (description f))) /\
  summary_is (_assess_compliance influx_features "InfluxDB")
             [ ("hipaa", 20, "Non-Compliant"); ("gdpr", 0, "Non-Compliant");
               ("iso_27001", 0, "Non-Compliant") ] /\
  map (fun kv => (fst kv, compliant_requirements (snd kv)))
      (_assess_compliance influx_features "InfluxDB")
  = [ ("hipaa", ["authentication"]); ("gdpr", []); ("iso_27001", []) ].
Proof.
  split; [|split; [|split; [|split]]].
  - vm_compute. repeat constructor.
  - vm_compute. repeat constructor.
  - assert (H : forallb (fun req =>
                  forallb (fun f =>
                    negb (Py.str_in req (Py.lower (feature f)))
                    && negb (Py.str_in req (Py.lower (description f))))
                    (pg_features ++ mongo_features)%list)
                  all_requirements = true) by (vm_compute; reflexivity).
    intros req f Hreq Hf.
    rewrite forallb_forall in H. specialize (H req Hreq).
    rewrite forallb_forall in H. specialize (H f Hf).
    apply andb_true_iff in H. destruct H as [H1 H2].
    rewrite negb_true_iff in H1, H2.
    rewrite <- !PyStringFacts.str_in_substring. split; congruence.
  - vm_compute. repeat constructor.
  - vm_compute. reflexivity.
Qed.

End SecurityAnalysisFacts.

(** ** Lists of numbers *)

Module PyListFacts.

Lemma truthy_false (x : Q) : Py.truthy x = false <-> x == 0.
Proof.
  unfold Py.truthy. rewrite negb_false_iff. apply Qeq_bool_iff.
Qed.

Lemma any_false (values : list Q) :
  Py.any values = false -> Forall (fun v => v == 0) values.
Proof.
  unfold Py.any. induction values as [|v vs IH]; cbn; intros H.
  - constructor.
  - apply orb_false_iff in H. destruct H as [Hv Hvs].
    constructor; [now apply truthy_false | now apply IH].
Qed.

Lemma max_from_ge_init (m : Q) (values : list Q) :
  m <= Py.max_from m values.
Proof.
  revert m. induction values as [|v vs IH]; intros m; cbn.
  - lra.
  - destruct (PyFacts.Qltb_spec m v) as [H|H].
    + specialize (IH v). lra.
    + apply IH.
Qed.

Lemma max_from_ge_all (m : Q) (values : list Q) :
  Forall (fun v => v <= Py.max_from m values) values.
Proof.
  revert m. induction values as [|v vs IH]; intros m; cbn.
  - constructor.
  - constructor; [|apply IH].
    destruct (PyFacts.Qltb_spec m v) as [H|H].
    + apply max_from_ge_init.
    + pose proof (max_from_ge_init m vs). lra.
Qed.

Lemma max_ge_all (values : list Q) (m : Q) :
  Py.max values = Some m -> Forall (fun v => v <= m) values.
Proof.
  destruct values as [|v vs]; cbn; intros H; inversion H; subst.
  constructor; [apply max_from_ge_init | apply max_from_ge_all].
Qed.

Lemma max_from_in (m : Q) (values : list Q) :
  Py.max_from m values = m \/ In (Py.max_from m values) values.
Proof.
  revert m. induction values as [|v vs IH]; intros m; cbn.
  - now left.
  - destruct (Py.Qltb m v).
    + destruct (IH v) as [H|H].
      * right. left. now rewrite H.
      * right. now right.
    + destruct (IH m) as [H|H]; [now left | right; now right].
Qed.

Lemma max_in (values : list Q) (m : Q) :
  Py.max values = Some m -> In m values.
Proof.
  destruct values as [|v vs]; cbn; intros H; inversion H; subst.
  destruct (max_from_in v vs) as [E|E]; [left; now rewrite E | now right].
Qed.

Lemma any_of_positive (values : list Q) (m : Q) :
  In m values -> 0 < m -> Py.any values = true.
Proof.
  intros Hin Hpos. unfold Py.any. apply existsb_exists. exists m.
  split; [exact Hin|].
  destruct (Py.truthy m) eqn:E; [reflexivity|].
  apply truthy_false in E. lra.
Qed.

End PyListFacts.

(** ** Results collector *)

Module ResultsCollectorFacts.
Import ResultsCollector.
Local Open Scope string_scope.

Lemma normalize_higher_length (values : list Q) :
  List.length (normalize_higher values) = List.length values.
Proof.
  unfold normalize_higher.
  destruct (Py.any values); [|reflexivity].
  destruct (Py.max values) as [m|]; [|reflexivity].
  destruct (Py.Qltb 0 m); [apply length_map | reflexivity].
Qed.

Lemma normalize_lower_length (values : list Q) :
  List.length (normalize_lower values) = List.length values.
Proof.
  unfold normalize_lower.
  destruct (Py.any values); [|reflexivity].
  destruct (Py.max values) as [m|]; [|reflexivity].
  destruct (Py.Qltb 0 m); [apply length_map | reflexivity].
Qed.

(** A column with a positive maximum is rescaled by it. *)
Lemma normalize_rescale (values : list Q) (m : Q) :
  Py.max values = Some m -> 0 < m ->
  normalize_higher values = map (fun v => v / m * 100) values /\
  normalize_lower values = map (fun v => (1 - v / m) * 100) values.
Proof.
  intros Hmax Hpos. unfold normalize_higher, normalize_lower.
  rewrite (PyListFacts.any_of_positive values m
             (PyListFacts.max_in _ _ Hmax) Hpos), Hmax.
  apply PyFacts.Qltb_lt in Hpos. rewrite Hpos. split; reflexivity.
Qed.

(** A column without a positive maximum stays as it is. *)
Lemma normalize_unchanged (values : list Q) :
  (forall m, Py.max values = Some m -> m <= 0) ->
  normalize_higher values = values /\ normalize_lower values = values.
Proof.
  intros H. unfold normalize_higher, normalize_lower.
  destruct (Py.any values); [|split; reflexivity].
  destruct (Py.max values) as [m|]; [|split; reflexivity].
  specialize (H m eq_refl). apply PyFacts.Qltb_ge in H. rewrite H.
  split; reflexivity.
Qed.

Lemma rescaled_range (v m : Q) :
  0 < m -> v <= m ->
  v / m * 100 <= 100 /\ 0 <= (1 - v / m) * 100 /\
  (0 <= v -> 0 <= v / m * 100 /\ (1 - v / m) * 100 <= 100).
Proof.
  intros Hm Hv.
  assert (H1 : v / m <= 1) by (apply Qle_shift_div_r; lra).
  split; [lra|]. split; [lra|]. intros H0.
  assert (H2 : 0 <= v / m) by (apply Qle_shift_div_l; lra).
  lra.
Qed.

(** After the rescaling no entry of a higher-is-better column exceeds 100. *)
Lemma normalize_higher_le (values : list Q) :
  Forall (fun v => v <= 100) (normalize_higher values).
Proof.
  unfold normalize_higher.
  destruct (Py.any values) eqn:Hany.
  - destruct (Py.max values) as [m|] eqn:Hmax.
    + pose proof (PyListFacts.max_ge_all _ _ Hmax) as Hall.
      destruct (PyFacts.Qltb_spec 0 m) as [Hpos|Hnp].
      * rewrite Forall_map. eapply Forall_impl; [|exact Hall].
        intros v Hv. cbv beta. now apply rescaled_range.
      * eapply Forall_impl; [|exact Hall]. intros v Hv. cbv beta in *. lra.
    + destruct values; [constructor | discriminate].
  - eapply Forall_impl; [|apply (PyListFacts.any_false _ Hany)].
    intros v Hv. cbv beta in *. lra.
Qed.

Lemma normalize_higher_range (values : list Q) :
  nonnegative values ->
  Forall (fun v => 0 <= v /\ v <= 100) (normalize_higher values).
Proof.
  intros Hnn. unfold normalize_higher.
  destruct (Py.any values) eqn:Hany.
  - destruct (Py.max values) as [m|] eqn:Hmax.
    + pose proof (PyListFacts.max_ge_all _ _ Hmax) as Hall.
      pose proof (Forall_and Hnn Hall) as Hboth.
      destruct (PyFacts.Qltb_spec 0 m) as [Hpos|Hnp].
      * rewrite Forall_map. eapply Forall_impl; [|exact Hboth].
        intros v [H0 Hv]. cbv beta.
        destruct (rescaled_range v m Hpos Hv) as (? & ? & H3).
        destruct (H3 H0). split; assumption.
      * eapply Forall_impl; [|exact Hboth]. intros v [H0 Hv]. lra.
    + destruct values; [constructor | discriminate].
  - eapply Forall_impl; [|apply (PyListFacts.any_false _ Hany)].
    intros v Hv. cbv beta in *. lra.
Qed.

Lemma normalize_lower_range (values : list Q) :
  nonnegative values ->
  Forall (fun v => 0 <= v /\ v <= 100) (normalize_lower values).
Proof.
  intros Hnn. unfold normalize_lower.
  destruct (Py.any values) eqn:Hany.
  - destruct (Py.max values) as [m|] eqn:Hmax.
    + pose proof (PyListFacts.max_ge_all _ _ Hmax) as Hall.
      pose proof (Forall_and Hnn Hall) as Hboth.
      destruct (PyFacts.Qltb_spec 0 m) as [Hpos|Hnp].
      * rewrite Forall_map. eapply Forall_impl; [|exact Hboth].
        intros v [H0 Hv]. cbv beta.
        destruct (rescaled_range v m Hpos Hv) as (? & ? & H3).
        destruct (H3 H0). split; assumption.
      * eapply Forall_impl; [|exact Hboth]. intros v [H0 Hv]. lra.
    + destruct values; [constructor | discriminate].
  - eapply Forall_impl; [|apply (PyListFacts.any_false _ Hany)].
    intros v Hv. cbv beta in *. lra.
Qed.

Lemma weighted_total_some (c : Comparison) (i : nat) :
  (i < List.length (ingestion_rate c))%nat ->
  (i < List.length (query_latency c))%nat ->
  (i < List.length (storage_size c))%nat ->
  (i < List.length (index_efficiency c))%nat ->
  (i < List.length (security_score c))%nat ->
  weighted_total c i = Some (row_raw c i).
Proof.
  intros H1 H2 H3 H4 H5. unfold weighted_total, weights, row_raw.
  cbn [fold_left fst snd].
  rewrite (nth_error_nth' _ 0 H1), (nth_error_nth' _ 0 H2),
    (nth_error_nth' _ 0 H3), (nth_error_nth' _ 0 H4), (nth_error_nth' _ 0 H5).
  reflexivity.
Qed.

Lemma set_item_middle {A : Type} (pre post : list A) (x v : A) :
  Py.set_item (pre ++ x :: post) (List.length pre) v
  = Some (pre ++ v :: post)%list.
Proof.
  unfold Py.set_item.
  assert (Hlt : (List.length pre <? List.length (pre ++ x :: post))%nat = true).
  { apply Nat.ltb_lt. rewrite length_app. cbn. lia. }
  rewrite Hlt. f_equal.
  rewrite firstn_app, Nat.sub_diag, firstn_all. cbn [firstn].
  rewrite app_nil_r. f_equal. f_equal.
  replace (S (List.length pre)) with (List.length (pre ++ [x])%list)
    by (rewrite length_app; cbn; lia).
  replace (pre ++ x :: post)%list with ((pre ++ [x]) ++ post)%list
    by (rewrite <- app_assoc; reflexivity).
  rewrite skipn_app, skipn_all, Nat.sub_diag. reflexivity.
Qed.

(** The scoring loop overwrites the rows [s, s + k) of the total column. *)
Lemma score_rows (k : nat) :
  forall (s : nat) (c : Comparison) (pre mid post : list Q),
    total_score c = (pre ++ mid ++ post)%list ->
    List.length pre = s -> List.length mid = k ->
    (s + k <= List.length (ingestion_rate c))%nat ->
    (s + k <= List.length (query_latency c))%nat ->
    (s + k <= List.length (storage_size c))%nat ->
    (s + k <= List.length (index_efficiency c))%nat ->
    (s + k <= List.length (security_score c))%nat ->
    fold_left score_row (seq s k) (Some c)
    = Some (with_total_score c
              (pre ++ map (row_total c) (seq s k) ++ post)%list).
Proof.
  induction k as [|k IH]; intros s c pre mid post Hts Hpre Hmid H1 H2 H3 H4 H5.
  - destruct mid; [|discriminate]. cbn in *. rewrite <- Hts.
    destruct c; reflexivity.
  - destruct mid as [|x mid]; [discriminate|].
    cbn [seq fold_left map]. unfold score_row at 2.
    rewrite weighted_total_some by lia.
    unfold set_total_score. rewrite Hts. subst s.
    change ((x :: mid) ++ post)%list with (x :: mid ++ post)%list.
    rewrite set_item_middle.
    fold (row_total c (List.length pre)).
    rewrite (IH (S (List.length pre)) _
               (pre ++ [row_total c (List.length pre)])%list mid post).
    + cbn. rewrite <- app_assoc. reflexivity.
    + cbn. rewrite <- app_assoc. reflexivity.
    + rewrite length_app. cbn. lia.
    + cbn in Hmid. lia.
    + cbn. lia.
    + cbn. lia.
    + cbn. lia.
    + cbn. lia.
    + cbn. lia.
Qed.

Lemma normalize_and_score_spec (c : Comparison) :
  well_formed c ->
  let c1 :=
    {| database := database c;
       ingestion_rate := normalize_higher (ingestion_rate c);
       query_latency := normalize_lower (query_latency c);
       storage_size := normalize_lower (storage_size c);
       index_efficiency := normalize_higher (index_efficiency c);
       security_score := security_score c;
       total_score := total_score c |} in
  _normalize_and_score c
  = Some (with_total_score c1
            (map (row_total c1) (seq 0 (List.length (database c))))).
Proof.
  intros (H1 & H2 & H3 & H4 & H5 & H6). cbv zeta.
  unfold _normalize_and_score. cbn [database].
  rewrite (score_rows (List.length (database c)) 0 _ [] (total_score c) []);
    cbn [total_score ingestion_rate query_latency storage_size
         index_efficiency security_score app List.length];
    rewrite ?app_nil_r, ?normalize_higher_length, ?normalize_lower_length;
    try reflexivity; try lia.
Qed.

Lemma nth_on_scale (values : list Q) (i : nat) :
  Forall on_scale values -> on_scale (nth i values 0).
Proof.
  intros H. destruct (Nat.lt_ge_cases i (List.length values)) as [Hlt|Hge].
  - rewrite Forall_forall in H. apply H. now apply nth_In.
  - rewrite nth_overflow by exact Hge. unfold on_scale. lra.
Qed.

Lemma row_total_on_scale (c : Comparison) (i : nat) :
  Forall on_scale (ingestion_rate c) -> Forall on_scale (query_latency c) ->
  Forall on_scale (storage_size c) -> Forall on_scale (index_efficiency c) ->
  Forall on_scale (security_score c) ->
  on_scale (row_total c i).
Proof.
  intros H1 H2 H3 H4 H5.
  destruct (nth_on_scale _ i H1), (nth_on_scale _ i H2),
    (nth_on_scale _ i H3), (nth_on_scale _ i H4), (nth_on_scale _ i H5).
  unfold row_total, on_scale. split.
  - apply (PyRoundFacts.round_ge 0). unfold row_raw.
    change (inject_Z 0) with 0. lra.
  - apply (PyRoundFacts.round_le 100). unfold row_raw.
    change (inject_Z 100) with 100. lra.
Qed.

Lemma weights_sum : Py.sum (map snd weights) == 1.
Proof. reflexivity. Qed.

(** C4 (amended). On a table with one entry per database in every column,
    [_normalize_and_score] replaces a higher-is-better column (ingestion_rate,
    index_efficiency) by v / max * 100 and a lower-is-better column
    (query_latency, storage_size) by (1 - v / max) * 100 when the column has
    a positive maximum, and leaves the column as it is otherwise;
    security_score is never rescaled.  Every total_score is the weighted sum
    with weights 0.25, 0.25, 0.20, 0.20 and 0.10, which add up to 1, rounded
    to two decimals.  When the four metric columns are nonnegative and every
    security_score lies in [0, 100], every total_score lies in [0, 100]. *)
Theorem C4_normalize_and_score :
  forall c : Comparison,
    well_formed c ->
    exists c' : Comparison,
      _normalize_and_score c = Some c' /\
      database c' = database c /\
      ingestion_rate c' = normalize_higher (ingestion_rate c) /\
      index_efficiency c' = normalize_higher (index_efficiency c) /\
      query_latency c' = normalize_lower (query_latency c) /\
      storage_size c' = normalize_lower (storage_size c) /\
      security_score c' = security_score c /\
      (forall values m,
         Py.max values = Some m -> 0 < m ->
         normalize_higher values = map (fun v => v / m * 100) values /\
         normalize_lower values = map (fun v => (1 - v / m) * 100) values) /\
      (forall values,
         (forall m, Py.max values = Some m -> m <= 0) ->
         normalize_higher values = values /\ normalize_lower values = values) /\
      total_score c'
        = map (fun i =>
                 Py.round
                   (0 + nth i (ingestion_rate c') 0 * (25 # 100)
                      + nth i (query_latency c') 0 * (25 # 100)
                      + nth i (storage_size c') 0 * (20 # 100)
                      + nth i (index_efficiency c') 0 * (20 # 100)
                      + nth i (security_score c') 0 * (10 # 100))
                   2)
              (seq 0 (List.length (database c))) /\
      Py.sum (map snd weights) == 1 /\
      (nonnegative (ingestion_rate c) -> nonnegative (query_latency c) ->
       nonnegative (storage_size c) -> nonnegative (index_efficiency c) ->
       Forall on_scale (security_score c) ->
       Forall on_scale (total_score c')).
Proof.
  intros c Hwf. eexists. split; [apply normalize_and_score_spec, Hwf|].
  cbn [database ingestion_rate index_efficiency query_latency storage_size
       security_score total_score with_total_score].
  repeat (split; [reflexivity|]).
  split; [apply normalize_rescale|].
  split; [apply normalize_unchanged|].
  split; [reflexivity|].
  split; [apply weights_sum|].
  intros H1 H2 H3 H4 H5.
  rewrite Forall_map, Forall_forall. intros i _.
  apply row_total_on_scale; cbn [ingestion_rate index_efficiency query_latency
                                 storage_size security_score].
  - now apply normalize_higher_range.
  - now apply normalize_lower_range.
  - now apply normalize_lower_range.
  - now apply normalize_higher_range.
  - exact H5.
Qed.

(** The theorem at a table with metrics in every column. *)
Lemma C4_normalize_and_score_witness :
  well_formed sample_comparison /\
  exists c' : Comparison,
    _normalize_and_score sample_comparison = Some c' /\
    Forall on_scale (total_score c').
Proof.
  assert (Hwf : well_formed sample_comparison) by (cbv; repeat split).
  split; [exact Hwf|].
  destruct (C4_normalize_and_score sample_comparison Hwf)
    as [c' (Hrun & _ & _ & _ & _ & _ & _ & _ & _ & _ & _ & Hscale)].
  exists c'. split; [exact Hrun|].
  apply Hscale; cbn; repeat constructor; unfold on_scale; cbn; try lra;
    try (split; lra); discriminate.
Defined.

(** C4 as stated fails: nonnegative metric values do not keep the total
    score within [0, 100], since security_score enters the weighted sum as
    it is.  A security score of 2000 gives the total 200. *)
Lemma C4_total_score_exceeds_100 :
  well_formed unscaled_security /\
  nonnegative (ingestion_rate unscaled_security) /\
  nonnegative (query_latency unscaled_security) /\
  nonnegative (storage_size unscaled_security) /\
  nonnegative (index_efficiency unscaled_security) /\
  nonnegative (security_score unscaled_security) /\
  exists c' : Comparison,
    _normalize_and_score unscaled_security = Some c' /\
    nth 0 (total_score c') 0 == 200 /\
    ~ Forall on_scale (total_score c').
Proof.
  split; [cbv; repeat split|].
  repeat (split; [repeat constructor; discriminate|]).
  eexists. split; [vm_compute; reflexivity|].
  split; [reflexivity|].
  intros H. inversion H as [|t ts [_ Hle] _]; subst.
  revert Hle. vm_compute. intros Hle. apply Hle. reflexivity.
Qed.

Lemma fill_ingestion_shape (ingestion : Py.dict (Py.dict Q))
  (db key : string) (i : nat) (a b c : Q) (ts : list Q) :
  (i < 3)%nat ->
  exists a' b' c' : Q,
    fill_ingestion ingestion db i key
      (Some {| database := ["PostgreSQL"; "InfluxDB"; "MongoDB"];
               ingestion_rate := [a; b; c];
               query_latency := [0; 0; 0];
               storage_size := [0; 0; 0];
               index_efficiency := [0; 0; 0];
               security_score := [0; 0; 0];
               total_score := ts |})
    = Some {| database := ["PostgreSQL"; "InfluxDB"; "MongoDB"];
              ingestion_rate := [a'; b'; c'];
              query_latency := [0; 0; 0];
              storage_size := [0; 0; 0];
              index_efficiency := [0; 0; 0];
              security_score := [0; 0; 0];
              total_score := ts |}.
Proof.
  intros Hi. unfold fill_ingestion.
  destruct (Py.lookup db ingestion) as [per_db|]; [|now exists a, b, c].
  destruct i as [|[|[|i]]]; [| | |lia]; cbn; eauto.
Qed.

(** C5 (amended). [generate_comparison_table] fills the ingestion_rate column
    only: query_latency, storage_size, index_efficiency and security_score
    are 0 for the three databases whatever metrics were collected.  Every
    total_score is 0.25 times the ingestion_rate entry of the table, rounded
    to two decimals, and at most 25; the summary report prints the winner's
    total score followed by "/100". *)
Theorem C5_comparison_table :
  forall results_metrics : option Metrics,
    exists c : Comparison,
      generate_comparison_table results_metrics = Some c /\
      database c = ["PostgreSQL"; "InfluxDB"; "MongoDB"] /\
      query_latency c = [0; 0; 0] /\
      storage_size c = [0; 0; 0] /\
      index_efficiency c = [0; 0; 0] /\
      security_score c = [0; 0; 0] /\
      Forall2 (fun t r => t == Py.round ((25 # 100) * r) 2)
              (total_score c) (ingestion_rate c) /\
      Forall (fun t => t <= 25) (total_score c) /\
      (forall (repr : Q -> string) (w : string * Q),
         winner c = Some w ->
         snd w <= 25 /\
         total_score_line repr w
         = "   Total Score: " ++ repr (snd w) ++ "/100" ++ Py.nl ++ Py.nl).
Proof.
  intros results_metrics. unfold generate_comparison_table.
  set (ingestion := Py.dict_get _ _ _).
  destruct (fill_ingestion_shape ingestion "postgresql" "avg_insert_rate"
              0 0 0 0 [0; 0; 0]) as (a1 & b1 & c1 & E1); [lia|].
  rewrite E1.
  destruct (fill_ingestion_shape ingestion "influxdb" "points_per_second"
              1 a1 b1 c1 [0; 0; 0]) as (a2 & b2 & c2 & E2); [lia|].
  rewrite E2.
  destruct (fill_ingestion_shape ingestion "mongodb" "insert_rate"
              2 a2 b2 c2 [0; 0; 0]) as (a & b & c & E3); [lia|].
  rewrite E3.
  rewrite normalize_and_score_spec by (cbv; repeat split).
  eexists. split; [reflexivity|].
  cbn [database ingestion_rate index_efficiency query_latency storage_size
       security_score total_score with_total_score List.length seq map].
  pose proof (normalize_higher_le [a; b; c]) as Hle.
  pose proof (normalize_higher_length [a; b; c]) as Hlen.
  destruct (normalize_higher [a; b; c]) as [|x [|y [|z [|]]]];
    try discriminate Hlen.
  inversion Hle as [|? ? Hx Hle1]; subst.
  inversion Hle1 as [|? ? Hy Hle2]; subst.
  inversion Hle2 as [|? ? Hz _]; subst.
  assert (Htot : forall v, v <= 100 ->
            Py.round (0 + v * (25 # 100) + 0 * (25 # 100) + 0 * (20 # 100)
                      + 0 * (20 # 100) + 0 * (10 # 100)) 2
            == Py.round ((25 # 100) * v) 2 /\
            Py.round (0 + v * (25 # 100) + 0 * (25 # 100) + 0 * (20 # 100)
                      + 0 * (20 # 100) + 0 * (10 # 100)) 2 <= 25).
  { intros v Hv. split.
    - apply PyRoundFacts.round_comp. ring.
    - apply (PyRoundFacts.round_le 25). change (inject_Z 25) with 25. lra. }
  assert (Hrows :
            Forall (fun t => t <= 25)
              [row_total
                 {| database := ["PostgreSQL"; "InfluxDB"; "MongoDB"];
                    ingestion_rate := [x; y; z];
                    query_latency := normalize_lower [0; 0; 0];
                    storage_size := normalize_lower [0; 0; 0];
                    index_efficiency := normalize_higher [0; 0; 0];
                    security_score := [0; 0; 0];
                    total_score := [0; 0; 0] |} 0%nat;
               row_total
                 {| database := ["PostgreSQL"; "InfluxDB"; "MongoDB"];
                    ingestion_rate := [x; y; z];
                    query_latency := normalize_lower [0; 0; 0];
                    storage_size := normalize_lower [0; 0; 0];
                    index_efficiency := normalize_higher [0; 0; 0];
                    security_score := [0; 0; 0];
                    total_score := [0; 0; 0] |} 1%nat;
               row_total
                 {| database := ["PostgreSQL"; "InfluxDB"; "MongoDB"];
                    ingestion_rate := [x; y; z];
                    query_latency := normalize_lower [0; 0; 0];
                    storage_size := normalize_lower [0; 0; 0];
                    index_efficiency := normalize_higher [0; 0; 0];
                    security_score := [0; 0; 0];
                    total_score := [0; 0; 0] |} 2%nat]).
  { repeat constructor; apply Htot; assumption. }
  repeat (split; [reflexivity|]).
  split; [repeat constructor; apply Htot; assumption|].
  split; [exact Hrows|].
  intros repr w Hw. split; [|reflexivity].
  unfold winner in Hw. cbn [total_score database] in Hw.
  destruct (idxmax _) as [i|]; [|discriminate].
  destruct (nth_error _ i) as [d|]; [|discriminate].
  destruct (nth_error _ i) as [t|] eqn:Et; [|discriminate].
  inversion Hw; subst. cbn [snd].
  rewrite Forall_forall in Hrows. apply Hrows.
  eapply nth_error_In. exact Et.
Qed.

(** C5 as stated fails: the total score is rounded to two decimals.  With 3
    inserts per second for PostgreSQL and 1 point per second for InfluxDB the
    normalized ingestion rate of InfluxDB is 100/3 and its total score is
    8.33, not 0.25 * 100/3. *)
Lemma C5_total_score_is_rounded :
  exists c : Comparison,
    generate_comparison_table (Some three_to_one) = Some c /\
    nth 1 (ingestion_rate c) 0 == 100 / 3 /\
    nth 1 (total_score c) 0 == 833 # 100 /\
    ~ nth 1 (total_score c) 0 == (25 # 100) * nth 1 (ingestion_rate c) 0.
Proof.
  eexists. split; [vm_compute; reflexivity|].
  split; [reflexivity|]. split; [reflexivity|].
  vm_compute. discriminate.
Qed.

End ResultsCollectorFacts.

(** ** Data importer *)

Module DataImportFacts.
Import DataImport.
Local Open Scope string_scope.

Section RetryLoop.

Variable Point : Type.
Variable write_api : nat -> list Point -> Py.result unit.
Variable max_retries : Z.







End RetryLoop.




End DataImportFacts.

(** ** Minimum, maximum and mean of a list *)

Module PyStatsFacts.



Lemma min_from_in (m : Q) (values : list Q) :
  Py.min_from m values = m \/ In (Py.min_from m values) values.
Proof.
  revert m. induction values as [|v vs IH]; intros m; cbn.
  - now left.
  - destruct (Py.Qltb v m).
    + destruct (IH v) as [H|H].
      * right. left. now rewrite H.
      * right. now right.
    + destruct (IH m) as [H|H]; [now left | right; now right].
Qed.


Lemma min_in (values : list Q) (m : Q) :
  Py.min values = Some m -> In m values.
Proof.
  destruct values as [|v vs]; cbn; intros H; inversion H; subst.
  destruct (min_from_in v vs) as [E|E]; [left; now rewrite E | now right].
Qed.




End PyStatsFacts.

(** ** Query performance tester *)

Module QueryPerformanceFacts.
Import QueryPerformance.
Local Open Scope string_scope.

Section RunFacts.

Variable query_api : nat -> string -> Py.result (Q * Z).
Variable stdev : list Q -> Q.


(** The measured loop keeps the successful runs, in order. *)
Lemma measure_samples (n : nat) (query : string) :
  forall (acc : Samples) (sent : list string),
    let ok := successful (measured_runs query_api n query sent) in
    s_execution_times (fst (measure query_api n query acc sent))
    = (s_execution_times acc ++ map time_of ok)%list /\
    s_result_counts (fst (measure query_api n query acc sent))
    = (s_result_counts acc ++ map count_of ok)%list.
Proof.
  induction n as [|n IH]; intros acc sent; cbn zeta.
  - cbn. now rewrite !app_nil_r.
  - cbn [measure measured_runs].
    destruct (execute_query query_api query 3 sent) as [r sent'].
    destruct (IH (record_run r acc) sent') as [IH1 IH2].
    rewrite IH1, IH2. unfold successful. cbn [filter].
    destruct r as [[t c] e]. unfold record_run.
    destruct (is_error (t, c, e)); cbn [negb map s_execution_times
                                         s_result_counts].
    + split; reflexivity.
    + rewrite <- !app_assoc. split; reflexivity.
Qed.




End RunFacts.


(** [test_query] never raises: the two sample lists have one length. *)
Lemma test_query_cases (query_api : nat -> string -> Py.result (Q * Z))
  (stdev : list Q -> Q) (query_def : QueryDef)
  (iterations warmup_iterations : Z) (sent : list string) :
  let ok :=
    successful
      (measured_runs query_api (Z.to_nat iterations) (query query_def)
         (warmup query_api (Z.to_nat warmup_iterations) (query query_def)
                 sent)) in
  (ok = [] /\
   fst (test_query query_api stdev query_def iterations warmup_iterations sent)
   = Py.Ok None) \/
  (ok <> [] /\
   exists r,
     fst (test_query query_api stdev query_def iterations warmup_iterations
                     sent) = Py.Ok (Some r)
     /\ query_name r = name query_def).
Proof.
  cbv zeta. unfold test_query.
  set (w := warmup query_api _ _ sent).
  destruct (measure_samples query_api (Z.to_nat iterations) (query query_def)
              no_samples w) as [Ht Hc].
  destruct (measure query_api (Z.to_nat iterations) (query query_def)
              no_samples w) as [acc sent'].
  cbn [fst snd no_samples s_execution_times s_result_counts app] in *.
  destruct (successful _) as [|r0 ok] eqn:Eok.
  - left. split; [reflexivity|]. unfold statistics_of. now rewrite Ht.
  - right. split; [discriminate|]. unfold statistics_of. rewrite Ht, Hc.
    cbn [map Py.mean Py.min Py.max]. eexists. split; reflexivity.
Qed.



Section SentQueries.

Variable query_api : nat -> string -> Py.result (Q * Z).
Variable stdev : list Q -> Q.

(** [execute_query] sends its query, and nothing else, at least once. *)
Lemma execute_loop_sent (max_retries : Z) (query : string) (remaining : nat) :
  forall (attempt : Z) (sent : list string),
    exists k : nat,
      snd (execute_loop query_api max_retries remaining attempt query sent)
      = (sent ++ repeat query k)%list /\
      (1 <= remaining -> 1 <= k)%nat.
Proof.
  induction remaining as [|r IH]; intros attempt sent.
  - exists 0%nat. cbn. rewrite app_nil_r. split; [reflexivity | lia].
  - cbn [execute_loop].
    destruct (query_api (List.length sent) query) as [[t c]|e].
    + exists 1%nat. split; [reflexivity | lia].
    + destruct (attempt <? max_retries - 1)%Z.
      * destruct (IH (attempt + 1)%Z (sent ++ [query])%list) as [k [Hk _]].
        exists (S k). rewrite Hk, <- app_assoc. split; [reflexivity | lia].
      * exists 1%nat. split; [reflexivity | lia].
Qed.

Lemma warmup_sent (query : string) (n : nat) :
  forall sent : list string,
    exists k : nat,
      warmup query_api n query sent = (sent ++ repeat query k)%list.
Proof.
  induction n as [|n IH]; intros sent.
  - exists 0%nat. cbn. now rewrite app_nil_r.
  - cbn [warmup]. unfold execute_query.
    destruct (execute_loop_sent 3 query (Z.to_nat 3) 0 sent) as [k1 [H1 _]].
    rewrite H1. destruct (IH (sent ++ repeat query k1)%list) as [k2 H2].
    exists (k1 + k2)%nat. rewrite H2, <- app_assoc, repeat_app. reflexivity.
Qed.

Lemma measure_sent (query : string) (n : nat) :
  forall (acc : Samples) (sent : list string),
    exists k : nat,
      snd (measure query_api n query acc sent)
      = (sent ++ repeat query k)%list /\
      (1 <= n -> 1 <= k)%nat.
Proof.
  induction n as [|n IH]; intros acc sent.
  - exists 0%nat. cbn. rewrite app_nil_r. split; [reflexivity | lia].
  - cbn [measure]. unfold execute_query.
    destruct (execute_loop_sent 3 query (Z.to_nat 3) 0 sent) as [k1 [H1 Hk1]].
    destruct (execute_loop query_api 3 (Z.to_nat 3) 0 query sent)
      as [r sent1].
    cbn [snd] in H1. subst sent1.
    destruct (IH (record_run r acc) (sent ++ repeat query k1)%list)
      as [k2 [H2 _]].
    exists (k1 + k2)%nat. rewrite H2, <- app_assoc, repeat_app.
    split; [reflexivity|]. intros _.
    assert (1 <= k1)%nat by (apply Hk1; cbn; lia). lia.
Qed.

(** Testing one query sends that query, and only it, at least once. *)
Lemma test_query_sent (query_def : QueryDef)
  (iterations warmup_iterations : Z) (sent : list string) :
  (1 <= iterations)%Z ->
  exists k : nat,
    (1 <= k)%nat /\
    snd (test_query query_api stdev query_def iterations warmup_iterations
                    sent)
    = (sent ++ repeat (query query_def) k)%list.
Proof.
  intros Hit. unfold test_query.
  destruct (warmup_sent (query query_def) (Z.to_nat warmup_iterations) sent)
    as [k1 H1].
  rewrite H1.
  destruct (measure_sent (query query_def) (Z.to_nat iterations) no_samples
              (sent ++ repeat (query query_def) k1)%list) as [k2 [H2 Hk2]].
  destruct (measure query_api _ _ _ _) as [acc sent2].
  cbn [snd] in *. subst sent2.
  exists (k1 + k2)%nat. rewrite <- app_assoc, repeat_app.
  split; [|reflexivity].
  assert (1 <= k2)%nat by (apply Hk2; lia). lia.
Qed.

Lemma in_repeat (x q : string) (k : nat) :
  (1 <= k)%nat -> (In q (repeat x k) <-> q = x).
Proof.
  intros Hk. split.
  - intros H. now apply repeat_spec in H.
  - intros ->. destruct k; [lia | now left].
Qed.

(** [run_performance_test] returns, sends exactly the queries it is given,
    and records results for those queries only. *)
Lemma run_performance_test_sent (iterations warmup_iterations : Z)
  (queries : list QueryDef) :
  (1 <= iterations)%Z ->
  forall (all_results : list QueryResult) (sent : list string),
    exists (results : list QueryResult) (sent' : list string),
      run_performance_test query_api stdev queries iterations
                           warmup_iterations all_results sent
      = (Py.Ok results, sent') /\
      (forall q, In q sent' <-> In q sent \/ In q (map query queries)) /\
      (forall r, In r results ->
                 In r all_results \/ In (query_name r) (map name queries)).
Proof.
  intros Hit. induction queries as [|qd rest IH]; intros all_results sent.
  - exists all_results, sent. cbn. split; [reflexivity|].
    split; [tauto | auto].
  - cbn [run_performance_test].
    destruct (test_query_sent qd iterations warmup_iterations sent Hit)
      as [k [Hk Hsent]].
    pose proof (test_query_cases query_api stdev qd iterations
                  warmup_iterations sent) as Hcases.
    destruct (test_query query_api stdev qd iterations warmup_iterations sent)
      as [res sent1].
    cbn [fst snd] in *. subst sent1.
    assert (Hin : forall q s,
               In q s \/ In q (map query rest) ->
               s = (sent ++ repeat (query qd) k)%list ->
               In q sent \/ In q (map query (qd :: rest))).
    { intros q s [H|H] ->.
      - apply in_app_or in H. destruct H as [H|H]; [now left|].
        apply in_repeat in H; [|exact Hk]. right. left. now symmetry.
      - right. now right. }
    assert (Hout : forall q,
               In q sent \/ In q (map query (qd :: rest)) ->
               In q (sent ++ repeat (query qd) k)%list
               \/ In q (map query rest)).
    { intros q [H|[H|H]].
      - left. apply in_or_app. now left.
      - left. apply in_or_app. right. apply in_repeat; [exact Hk | easy].
      - now right. }
    destruct Hcases as [[_ ->]|[_ [r [-> Hname]]]].
    + destruct (IH all_results (sent ++ repeat (query qd) k)%list)
        as (results & sent' & Hrun & Hs & Hr).
      exists results, sent'. split; [exact Hrun|]. split.
      * intros q. rewrite Hs. split; [intros H; now apply (Hin q _ H) | auto].
      * intros r Hin'. destruct (Hr r Hin') as [H|H]; [now left|].
        right. now right.
    + destruct (IH (all_results ++ [r])%list
                  (sent ++ repeat (query qd) k)%list)
        as (results & sent' & Hrun & Hs & Hr).
      exists results, sent'. split; [exact Hrun|]. split.
      * intros q. rewrite Hs. split; [intros H; now apply (Hin q _ H) | auto].
      * intros r' Hin'. destruct (Hr r' Hin') as [H|H].
        -- apply in_app_or in H. destruct H as [H|[<-|[]]]; [now left|].
           right. left. now symmetry.
        -- right. now right.
Qed.

End SentQueries.

(** C9. [define_test_queries] depends on the bucket name alone: two testers
    with the same bucket get the same list, which has exactly the eight
    queries simple_recent_data, time_range_aggregation, group_by_patient,
    complex_aggregation, alert_detection, join_simulation, large_time_range
    and high_cardinality; [run_comprehensive_test] runs
    [run_performance_test] on that list, sends the Flux texts of these eight
    queries and no other to the SDK, and records results for these queries
    only. *)
Theorem C9_fixed_query_set :
  forall t1 t2 : Tester,
    bucket t1 = bucket t2 ->
    define_test_queries t1 = define_test_queries t2 /\
    List.length (define_test_queries t1) = 8%nat /\
    map name (define_test_queries t1) = test_query_names /\
    forall (query_api : nat -> string -> Py.result (Q * Z))
           (stdev : list Q -> Q),
      run_comprehensive_test query_api stdev t1
      = run_performance_test query_api stdev (define_test_queries t1)
                             5 2 [] [] /\
      exists (results : list QueryResult) (sent : list string),
        run_comprehensive_test query_api stdev t1 = (Py.Ok results, sent) /\
        (forall q, In q sent <-> In q (map query (define_test_queries t1))) /\
        Forall (fun r => In (query_name r) test_query_names) results.
Proof.
  intros t1 t2 Hb.
  split.
  { unfold define_test_queries, query_simple_recent_data,
      query_time_range_aggregation, query_group_by_patient,
      query_complex_aggregation, query_alert_detection, query_join_simulation,
      query_large_time_range, query_high_cardinality.
    now rewrite Hb. }
  split; [reflexivity|]. split; [reflexivity|].
  intros query_api stdev. split; [reflexivity|].
  unfold run_comprehensive_test.
  destruct (run_performance_test_sent query_api stdev 5 2
              (define_test_queries t1) ltac:(lia) [] [])
    as (results & sent & Hrun & Hs & Hr).
  exists results, sent. split; [exact Hrun|]. split.
  - intros q. rewrite Hs. cbn [In]. tauto.
  - apply Forall_forall. intros r Hin.
    destruct (Hr r Hin) as [[]|H]. exact H.
Qed.

(** The theorem at two testers that share the bucket and nothing else. *)
Lemma C9_fixed_query_set_witness :
  bucket tester_a = bucket tester_b /\
  url tester_a <> url tester_b /\
  define_test_queries tester_a = define_test_queries tester_b.
Proof.
  assert (Hb : bucket tester_a = bucket tester_b) by reflexivity.
  split; [exact Hb|]. split; [discriminate|].
  exact (proj1 (C9_fixed_query_set tester_a tester_b Hb)).
Defined.

End QueryPerformanceFacts.

(** ** Token manager *)

Module SecurityTokensFacts.
Import SecurityTokens.
Local Open Scope string_scope.

(** A [try]/[except] whose handler returns, returns. *)
Lemma try_except_returns {A : Type} (body : M A) (handler : Py.exn -> M A) :
  (forall e, exists v, returns (handler e) v) ->
  exists v, returns (try_except body handler) v.
Proof.
  intros H. unfold try_except, returns.
  destruct body as [[a|e] out].
  - now exists a.
  - destruct (H e) as [v Hv]. unfold returns in Hv.
    destruct (handler e) as [r out']. cbn in *. now exists v.
Qed.

(** A handler that prints and returns a sentinel. *)
Lemma sentinel_returns {A : Type} (line : string) (v : A) :
  returns (print line ;;; ret v) v.
Proof. reflexivity. Qed.

Lemma try_except_raised {A : Type} (body : M A) (handler : Py.exn -> M A)
  (e : Py.exn) :
  raises body e ->
  fst (try_except body handler) = fst (handler e) /\
  snd (try_except body handler) = (snd body ++ snd (handler e))%list.
Proof.
  unfold raises, try_except. destruct body as [[a|e'] out]; cbn; intros H.
  - discriminate.
  - inversion H; subst. destruct (handler e). split; reflexivity.
Qed.

Lemma get_token_info_returns (self : Manager) (token_id : string) :
  exists v, returns (get_token_info self token_id) v.
Proof.
  apply try_except_returns. intros e. eexists. apply sentinel_returns.
Qed.

Lemma list_tokens_returns (self : Manager) (user_id : option string) :
  exists v, returns (list_tokens self user_id) v.
Proof.
  apply try_except_returns. intros e. eexists. apply sentinel_returns.
Qed.

Lemma get_org_id_reraises (self : Manager) (e : Py.exn) :
  find_organizations (client self) (org self) = Py.Raised e ->
  raises (get_org_id self) e /\
  snd (get_org_id self) = ["Error getting org ID: " ++ Py.exn_str e].
Proof.
  intros H. unfold get_org_id, raises, call. rewrite H. cbn. auto.
Qed.

Lemma create_token_traps_org (self : Manager) (desc : string)
  (perms : list (Py.dict string)) (user_id : option string) (e : Py.exn) :
  raises (get_org_id self) e ->
  returns (create_token self desc perms user_id) None.
Proof.
  unfold raises, returns, create_token. intros H.
  destruct (permissions_of perms) as [[ps|e'] out]; cbn.
  - destruct (get_org_id self) as [[o|e''] out']; cbn in *; [discriminate|].
    reflexivity.
  - reflexivity.
Qed.

(** C8 (amended). No token operation lets an exception of the SDK escape:
    [list_tokens] returns the empty list when the SDK call raises,
    [create_token], [get_token_info] and [update_token] return [None],
    [delete_token] returns [False]; [export_tokens] returns [False] when
    writing the file raises, while a failure of the SDK inside it is trapped
    by [list_tokens], after which it writes the empty list and returns
    [True].  [get_org_id] and [get_bucket_id] print the error and raise it
    again, and [create_token] turns an exception of [get_org_id] into
    [None]. *)
Theorem C8_token_operations_trap :
  forall self : Manager,
    (forall user_id, exists v, returns (list_tokens self user_id) v) /\
    (forall desc perms user_id,
       exists v, returns (create_token self desc perms user_id) v) /\
    (forall token_id, exists v, returns (get_token_info self token_id) v) /\
    (forall token_id desc st,
       exists v, returns (update_token self token_id desc st) v) /\
    (forall token_id, exists v, returns (delete_token self token_id) v) /\
    (forall output_file, exists v, returns (export_tokens self output_file) v) /\
    (forall user_id e,
       find_authorizations (client self) (org self) user_id = Py.Raised e ->
       returns (list_tokens self user_id) [] /\
       printed (list_tokens self user_id)
               ("Error listing tokens: " ++ Py.exn_str e)) /\
    (forall token_id e,
       find_authorization_by_id (client self) token_id = Py.Raised e ->
       returns (get_token_info self token_id) None) /\
    (forall token_id desc st e,
       update_authorization (client self) token_id desc st = Py.Raised e ->
       returns (update_token self token_id desc st) None) /\
    (forall desc perms user_id e,
       (forall a, create_authorization (client self) a = Py.Raised e) ->
       returns (create_token self desc perms user_id) None) /\
    (forall token_id e,
       delete_authorization (client self) token_id = Py.Raised e ->
       returns (delete_token self token_id) false) /\
    (forall output_file e,
       (forall tokens,
          write_json (client self) output_file tokens = Py.Raised e) ->
       returns (export_tokens self output_file) false) /\
    (forall output_file e,
       find_authorizations (client self) (org self) None = Py.Raised e ->
       write_json (client self) output_file [] = Py.Ok tt ->
       returns (export_tokens self output_file) true) /\
    (forall e,
       find_organizations (client self) (org self) = Py.Raised e ->
       raises (get_org_id self) e /\
       printed (get_org_id self) ("Error getting org ID: " ++ Py.exn_str e)) /\
    (forall bucket_name e,
       find_bucket_by_name (client self) bucket_name = Py.Raised e ->
       raises (get_bucket_id self bucket_name) e /\
       printed (get_bucket_id self bucket_name)
               ("Error getting bucket ID: " ++ Py.exn_str e)) /\
    (forall desc perms user_id e,
       raises (get_org_id self) e ->
       returns (create_token self desc perms user_id) None).
Proof.
  intros self.
  split; [intros; apply list_tokens_returns|].
  split.
  { intros. apply try_except_returns. intros e. eexists.
    apply sentinel_returns. }
  split; [intros; apply get_token_info_returns|].
  split.
  { intros. apply try_except_returns. intros e. eexists.
    apply sentinel_returns. }
  split.
  { intros. apply try_except_returns. intros e. eexists.
    apply sentinel_returns. }
  split.
  { intros. apply try_except_returns. intros e. eexists.
    apply sentinel_returns. }
  split.
  { intros user_id e H. unfold list_tokens, returns, printed, call.
    rewrite H. cbn. auto. }
  split.
  { intros token_id e H. unfold get_token_info, returns, call.
    rewrite H. reflexivity. }
  split.
  { intros token_id desc st e H. unfold update_token, returns, call.
    rewrite H. reflexivity. }
  split.
  { intros desc perms user_id e H. unfold create_token, returns.
    destruct (permissions_of perms) as [[ps|e'] out]; cbn; [|reflexivity].
    destruct (get_org_id self) as [[o|e''] out']; cbn; [|reflexivity].
    unfold call. rewrite H. reflexivity. }
  split.
  { intros token_id e H. unfold delete_token, returns, call.
    rewrite H. reflexivity. }
  split.
  { intros output_file e H. unfold export_tokens, returns.
    destruct (list_tokens_returns self None) as [tokens Ht].
    unfold returns in Ht.
    destruct (list_tokens self None) as [[ts|e'] out]; cbn in Ht;
      [|discriminate].
    cbn. unfold call. rewrite H. reflexivity. }
  split.
  { intros output_file e Hsdk Hfile.
    unfold export_tokens, list_tokens, returns, call.
    rewrite Hsdk. cbn. rewrite Hfile. reflexivity. }
  split.
  { intros e H. destruct (get_org_id_reraises self e H) as [Hr Hp].
    split; [exact Hr|]. unfold printed. rewrite Hp. now left. }
  split.
  { intros bucket_name e H. unfold get_bucket_id, raises, printed, call.
    rewrite H. cbn. auto. }
  intros desc perms user_id e H. now apply (create_token_traps_org _ _ _ _ e).
Qed.

(** The theorem at a manager whose SDK is down, for [create_token]. *)
Lemma C8_token_operations_trap_witness :
  raises (get_org_id offline_manager) unreachable /\
  returns (create_token offline_manager "reader"
             [[("action", "read"); ("resource_type", "buckets")]] None) None.
Proof.
  assert (H : raises (get_org_id offline_manager) unreachable)
    by reflexivity.
  split; [exact H|].
  destruct (C8_token_operations_trap offline_manager)
    as (_ & _ & _ & _ & _ & _ & _ & _ & _ & _ & _ & _ & _ & _ & _ & Hc).
  exact (Hc "reader" [[("action", "read"); ("resource_type", "buckets")]]
            None unreachable H).
Defined.

(** C8 as stated fails for [export_tokens]: when the SDK is down the
    exception is trapped by [list_tokens], and [export_tokens] writes the
    empty list and returns [True], not [False]. *)
Lemma C8_export_reports_success :
  find_authorizations (client offline_manager) (org offline_manager) None
  = Py.Raised unreachable /\
  export_tokens offline_manager "tokens.json"
  = (Py.Ok true,
     [ "Error listing tokens: connection refused";
       "Exported 0 tokens to tokens.json" ]) /\
  ~ returns (export_tokens offline_manager "tokens.json") false.
Proof.
  split; [reflexivity|]. split; [reflexivity|].
  unfold returns. cbn. discriminate.
Qed.

End SecurityTokensFacts.

(** ** Data set generator *)

Module DatasetFacts.
Import Dataset.
Local Open Scope string_scope.

Lemma choice_in (seq : list string) (k : nat) :
  seq <> [] -> In (choice seq k) seq.
Proof.
  intros H. unfold choice. apply nth_In. apply Nat.mod_upper_bound.
  destruct seq; [contradiction | discriminate].
Qed.

Lemma patients_match (p : string) :
  In p patients -> matches_patient_pattern p = true.
Proof.
  assert (H : forallb matches_patient_pattern patients = true)
    by (vm_compute; reflexivity).
  rewrite forallb_forall in H. apply H.
Qed.

(** Every vital type has a range with integer bounds, the lower one
    nonnegative. *)
Lemma vital_range (vt : string) :
  In vt vital_types ->
  exists (a b : Z) (typical : Q),
    Py.lookup vt vital_ranges = Some (inject_Z a, inject_Z b, typical) /\
    (0 <= a)%Z /\ (a <= b)%Z.
Proof.
  intros H. cbn in H.
  repeat (destruct H as [<-|H];
          [eexists _, _, _; split; [reflexivity | split; lia]|]).
  contradiction.
Qed.

(** Clamping puts a value into the range. *)
Lemma clamp_range (lo hi x : Q) :
  lo <= hi ->
  lo <= Py.max2 lo (Py.min2 hi x) /\ Py.max2 lo (Py.min2 hi x) <= hi.
Proof.
  intros H. unfold Py.max2, Py.min2.
  destruct (PyFacts.Qltb_spec x hi);
    match goal with
    | |- context [Py.Qltb lo ?y] => destruct (PyFacts.Qltb_spec lo y)
    end; split; lra.
Qed.

Lemma alert_flag_binary (vt : string) (v u : Q) :
  alert_flag_of vt v u = 0%Z \/ alert_flag_of vt v u = 1%Z.
Proof.
  unfold alert_flag_of.
  repeat match goal with
         | |- context [if ?c then _ else _] => destruct c
         end; auto.
Qed.

Lemma record_of_generated (i : nat) (d : Draw) :
  exists r, record_of i d = Py.Ok r /\ generated_row i r.
Proof.
  unfold record_of.
  assert (Hvt : In (choice vital_types (vital_draw d)) vital_types)
    by (apply choice_in; discriminate).
  destruct (vital_range _ Hvt) as (a & b & typical & Hl & Ha & Hab).
  rewrite Hl. eexists. split; [reflexivity|].
  unfold generated_row.
  cbn [timestamp patient_id vital_type value alert_flag].
  split; [reflexivity|]. split.
  { eexists. split; [reflexivity|].
    assert (Hp : In (choice patients (patient_draw d)) patients)
      by (apply choice_in; discriminate).
    split; [exact Hp | now apply patients_match]. }
  split; [|apply alert_flag_binary].
  destruct (clamp_range (inject_Z a) (inject_Z b)
              (base_value_of (choice vital_types (vital_draw d)) typical
                 (hour_of (timestamp_of i)) (uniform_draw d))) as [Hlo Hhi].
  { rewrite <- Zle_Qle. exact Hab. }
  eexists _, _, _, _, _. split; [reflexivity|]. split; [exact Hvt|].
  split; [exact Hl|]. split; [reflexivity|].
  split; [now apply PyRoundFacts.round_ge|].
  split; [now apply PyRoundFacts.round_le|].
  apply (PyRoundFacts.round_ge 0).
  assert (H0 : inject_Z 0 <= inject_Z a) by (rewrite <- Zle_Qle; exact Ha).
  lra.
Qed.

Lemma records_from_generated (draws : nat -> Draw) (count : nat) :
  forall start : nat,
    exists rows,
      records_from count start draws = Py.Ok rows /\
      Forall2 generated_row (seq start count) rows.
Proof.
  induction count as [|n IH]; intros start.
  - exists []. split; [reflexivity | constructor].
  - cbn [records_from seq].
    destruct (record_of_generated start (draws start)) as [r [Hr Hg]].
    destruct (IH (S start)) as [rows [Hrows Hall]].
    rewrite Hr, Hrows. exists (r :: rows).
    split; [reflexivity | now constructor].
Qed.

Lemma generated_monotonic (count : nat) :
  forall (start : nat) (rows : list Row),
    Forall2 generated_row (seq start count) rows ->
    is_monotonic_increasing (map timestamp rows) = true.
Proof.
  induction count as [|n IH]; intros start rows H.
  - inversion H; subst. reflexivity.
  - cbn [seq] in H. inversion H as [|i r ixs rs Hr Hrest]; subst.
    destruct Hr as (Ht & _). pose proof (IH (S start) rs Hrest) as Hmono.
    cbn [map is_monotonic_increasing]. rewrite Ht.
    destruct n as [|n].
    + inversion Hrest; subst. reflexivity.
    + cbn [seq] in Hrest. inversion Hrest as [|i' r' ixs' rs' Hr' _]; subst.
      destruct Hr' as (Ht' & _). cbn [map]. rewrite Ht'.
      cbn [map] in Hmono. rewrite Ht' in Hmono. rewrite Hmono.
      rewrite andb_true_r. apply Z.leb_le. lia.
Qed.

Lemma values_of_in (vital : string) (df : list Row) (v : Q) :
  In v (values_of vital df) -> exists r, In r df /\ value r = Some v.
Proof.
  induction df as [|r df IH]; cbn [values_of]; [contradiction|].
  intros H.
  assert (Hrest : In v (values_of vital df) ->
                  exists r0, In r0 (r :: df) /\ value r0 = Some v).
  { intros H'. destruct (IH H') as [r0 [Hin Hv]].
    exists r0. split; [now right | exact Hv]. }
  destruct (vital_type r) as [vt|]; [|now apply Hrest].
  destruct (value r) as [w|] eqn:Ew; [|now apply Hrest].
  destruct (String.eqb vt vital); [|now apply Hrest].
  destruct H as [<-|H]; [|now apply Hrest].
  exists r. split; [now left | exact Ew].
Qed.

(** Rows as the generator makes them pass the five checks. *)
Lemma generated_valid (count start : nat) (rows : list Row) :
  Forall2 generated_row (seq start count) rows ->
  validate_dataset rows = true.
Proof.
  intros H. unfold validate_dataset.
  assert (Hall : forall r, In r rows -> exists i, generated_row i r).
  { intros r Hin. clear -H Hin. induction H as [|i r0 ixs rs Hr _ IH].
    - contradiction.
    - destruct Hin as [<-|Hin]; [now exists i | now apply IH]. }
  repeat (apply andb_true_iff; split).
  - unfold null_check. apply forallb_forall. intros r Hin.
    destruct (Hall r Hin)
      as (i & Ht & (p & Hp & _) & (vt & lo & hi & ty & v & Hvt & _ & _ & Hv & _)
          & _).
    now rewrite Ht, Hp, Hvt, Hv.
  - now apply (generated_monotonic count start).
  - unfold value_ranges_valid. apply forallb_forall. intros vital _.
    destruct (Py.min (values_of vital rows)) as [m|] eqn:Em; [|reflexivity].
    apply PyStatsFacts.min_in in Em.
    destruct (values_of_in _ _ _ Em) as (r & Hin & Hv).
    destruct (Hall r Hin)
      as (i & _ & _ & (vt & lo & hi & ty & v & _ & _ & _ & Hv' & _ & _ & H0)
          & _).
    rewrite Hv in Hv'. inversion Hv'; subst.
    apply PyFacts.Qltb_ge in H0. now rewrite H0.
  - unfold alert_binary_check. apply forallb_forall. intros r Hin.
    destruct (Hall r Hin) as (i & _ & _ & _ & [Ha|Ha]); now rewrite Ha.
  - unfold patient_pattern_check. apply forallb_forall. intros r Hin.
    destruct (Hall r Hin) as (i & _ & (p & Hp & _ & Hm) & _).
    now rewrite Hp.
Qed.

(** C10. For every [num_records >= 1] and every sequence of random draws,
    [generate_health_iot_data] returns a data frame of [num_records] rows
    that passes the five checks of [validate_dataset]: no null in a critical
    column, the timestamps [base_time + 2 * i] seconds in increasing order,
    every value inside the (min, max) range of its vital type and hence not
    negative, every alert flag 0 or 1, and every patient id of the form
    PATIENT_ and five digits. *)
Theorem C10_generated_dataset_validates :
  forall (num_records : Z) (draws : nat -> Draw),
    (1 <= num_records)%Z ->
    exists df : list Row,
      generate_health_iot_data num_records draws = Py.Ok df /\
      Z.of_nat (List.length df) = num_records /\
      Forall2 generated_row (seq 0 (Z.to_nat num_records)) df /\
      null_check df = true /\
      is_monotonic_increasing (map timestamp df) = true /\
      value_ranges_valid df = true /\
      alert_binary_check df = true /\
      patient_pattern_check df = true /\
      validate_dataset df = true.
Proof.
  intros n draws Hn. unfold generate_health_iot_data.
  assert (Hpos : (n <=? 0)%Z = false) by (apply Z.leb_gt; lia).
  rewrite Hpos.
  destruct (records_from_generated draws (Z.to_nat n) 0) as [df [Hrun Hall]].
  exists df. split; [exact Hrun|].
  pose proof (generated_valid _ _ _ Hall) as Hvalid.
  split.
  { apply Forall2_length in Hall. rewrite length_seq in Hall. lia. }
  split; [exact Hall|].
  unfold validate_dataset in Hvalid.
  repeat (apply andb_true_iff in Hvalid; destruct Hvalid as [Hvalid ?]).
  repeat split; try assumption.
  unfold validate_dataset.
  repeat (apply andb_true_iff; split); assumption.
Qed.

(** The theorem at 50 records with the same draws for every record but the
    vital type, which cycles. *)
Lemma C10_generated_dataset_validates_witness :
  (1 <= 50)%Z /\
  exists df : list Row,
    generate_health_iot_data 50 constant_draws = Py.Ok df /\
    validate_dataset df = true.
Proof.
  assert (H : (1 <= 50)%Z) by lia.
  split; [exact H|].
  destruct (C10_generated_dataset_validates 50 constant_draws H)
    as (df & Hrun & _ & _ & _ & _ & _ & _ & _ & Hv).
  exists df. split; assumption.
Defined.

End DatasetFacts.
